(** * clashConvertTool: vmess subscription to Clash configuration

    A shallow embedding of [src/pkg/main.go]: the per-node mapper
    [convertVmessToClashProxy], the template merger
    [createDefaultClashConfig], the orchestrator [processConvert] and the
    HTTP handler [processConfig], with the properties of the conversion
    pipeline proved about them.

    Go strings are byte strings: they are modelled by [string] (a list of
    8-bit [ascii]), so that [String.length] is Go's [len].  Go's [int] is
    the 64-bit one (the Makefile builds for amd64) and is modelled by [Z].
    Maps are stdpp's [gmap]. *)

From Stdlib Require Import ZArith Ascii String List Lia.
From stdpp Require Import base option list gmap strings pretty.

Open Scope string_scope.
Open Scope Z_scope.

(** ** Results of fallible calls *)

(** Go's [(T, error)] pair; an [error] is represented by its message. *)
Inductive Result (A : Type) : Type :=
| Ok (a : A)
| Err (msg : string).
Arguments Ok {A} a.
Arguments Err {A} msg.

Definition is_ok {A} (r : Result A) : bool :=
  match r with Ok _ => true | Err _ => false end.

(** ** [strconv.Atoi] on a 64-bit platform *)

Module strconv.

Inductive NumError := ErrSyntax | ErrRange.

Definition maxUint64 : Z := 2 ^ 64 - 1.
Definition byte_sub (c d : Z) : Z := (c - d) mod 256.
Definition code (ch : ascii) : Z := Z.of_nat (nat_of_ascii ch).
(** The value of a 64-bit signed [int] after an operation wrapped. *)
Definition wrap64 (z : Z) : Z := (z + 2 ^ 63) mod 2 ^ 64 - 2 ^ 63.

(** The loop of the fast path: [ch -= '0'; if ch > 9 { error };
    n = n*10 + int(ch)], the subtraction being one on bytes and the
    sum one on 64-bit integers. *)
Fixpoint fast_loop (s : string) (n : Z) : option Z :=
  match s with
  | EmptyString => Some n
  | String ch s' =>
      let d := byte_sub (code ch) 48 in
      if 9 <? d then None else fast_loop s' (wrap64 (n * 10 + d))
  end.

(** The loop of [ParseUint] at base 10 and bit size 64.  No underscore
    is accepted at an explicit base, and a letter is a digit of value
    at least 10, refused at base 10. *)
Fixpoint uint_loop (s : string) (n : Z) : NumError + Z :=
  match s with
  | EmptyString => inr n
  | String ch s' =>
      let c := code ch in
      if (48 <=? c) && (c <=? 57) then
        let d := c - 48 in
        if maxUint64 / 10 + 1 <=? n then inl ErrRange
        else
          let n10 := n * 10 in
          let n1 := (n10 + d) mod 2 ^ 64 in
          if (n1 <? n10) || (maxUint64 <? n1) then inl ErrRange
          else uint_loop s' n1
      else inl ErrSyntax
  end.

Definition ParseUint (s : string) : NumError + Z :=
  match s with
  | EmptyString => inl ErrSyntax
  | _ => uint_loop s 0
  end.

(** [ParseInt(s, 10, 0)]: a range error of [ParseUint] is kept
    and reported after the sign is known. *)
Definition ParseInt (s : string) : NumError + Z :=
  match s with
  | EmptyString => inl ErrSyntax
  | String ch s' =>
      let '(neg, body) :=
        if Ascii.eqb ch "+" then (false, s')
        else if Ascii.eqb ch "-" then (true, s')
        else (false, s) in
      let cutoff := 2 ^ 63 in
      match ParseUint body with
      | inl ErrSyntax => inl ErrSyntax
      | inl ErrRange => inl ErrRange
      | inr un =>
          if negb neg && (cutoff <=? un) then inl ErrRange
          else if neg && (cutoff <? un) then inl ErrRange
          else inr (if neg then - un else un)
      end
  end.

(** Strings of 1 to 18 bytes take the fast path, the others go
    through [ParseInt]. *)
Definition Atoi (s : string) : NumError + Z :=
  let sLen := Z.of_nat (String.length s) in
  if (0 <? sLen) && (sLen <? 19) then
    match s with
    | EmptyString => inl ErrSyntax
    | String ch0 s' =>
        let signed := Ascii.eqb ch0 "-" || Ascii.eqb ch0 "+" in
        let body := if signed then s' else s in
        if signed && (String.length body <? 1)%nat then inl ErrSyntax
        else
          match fast_loop body 0 with
          | None => inl ErrSyntax
          | Some n => inr (if Ascii.eqb ch0 "-" then wrap64 (- n) else n)
          end
    end
  else ParseInt s.

End strconv.

(** What it is for a string to denote an integer: decimal digits after
    an optional sign. *)
Definition is_digit (ch : ascii) : bool :=
  (48 <=? strconv.code ch) && (strconv.code ch <=? 57).

Fixpoint digits_value (s : string) (acc : Z) : option Z :=
  match s with
  | EmptyString => Some acc
  | String ch s' =>
      if is_digit ch then digits_value s' (acc * 10 + (strconv.code ch - 48))
      else None
  end.

Definition decimal_integer (s : string) : option Z :=
  match s with
  | EmptyString => None
  | String ch s' =>
      if Ascii.eqb ch "-" then
        match s' with
        | EmptyString => None
        | _ => Z.opp <$> digits_value s' 0
        end
      else if Ascii.eqb ch "+" then
        match s' with
        | EmptyString => None
        | _ => digits_value s' 0
        end
      else digits_value s 0
  end.

Definition in_int64 (n : Z) : bool := (- 2 ^ 63 <=? n) && (n <=? 2 ^ 63 - 1).

(** The sign of [s] and what follows it. *)
Definition split_sign (s : string) : bool * string :=
  match s with
  | EmptyString => (false, EmptyString)
  | String ch s' =>
      if Ascii.eqb ch "-" then (true, s')
      else if Ascii.eqb ch "+" then (false, s')
      else (false, s)
  end.

(** ** Data model *)

#[local] Set Warnings "-register-all".

(** Go's [interface{}] restricted to the dynamic types that reach this
    program: what the YAML decoder produces and what the mapper stores
    in [ws-opts]. *)
Inductive iface : Type :=
| INil
| IBool (b : bool)
| IInt (n : Z)
| IFloat (bits : Z)
| IString (s : string)
| ISlice (l : list iface)
| IMapStrStr (m : gmap string string)
| IMapStrIface (m : gmap string iface).

(** [v.(string)] with the comma-ok form: the zero value on failure. *)
Definition assert_string (v : option iface) : string * bool :=
  match v with
  | Some (IString s) => (s, true)
  | _ => ("", false)
  end.

(** [v.([]interface{})] with the comma-ok form. *)
Definition assert_slice (v : option iface) : list iface * bool :=
  match v with
  | Some (ISlice l) => (l, true)
  | _ => ([], false)
  end.

Module VmessNode.
Record t := mk {
  Add : string;
  Aid : Z;
  Host : string;
  ID : string;
  Net : string;
  Path : string;
  Port : string;
  PS : string;
  TLS : string;
  Type_ : string;
  V : string
}.
End VmessNode.

Module ClashProxy.
Record t := mk {
  Name : string;
  Type_ : string;
  Server : string;
  Port : Z;
  UUID : string;
  AlterID : Z;
  Cipher : string;
  TLS : bool;
  Network : string;
  WSOpts : option (gmap string iface);
  SkipCert : bool
}.

(** The zero value [ClashProxy{}]; a nil map is [None]. *)
Definition zero : t :=
  mk "" "" "" 0 "" 0 "" false "" None false.
End ClashProxy.

Record RulesProvider := {
  rp_Type : string;
  rp_Behavior : string;
  rp_URL : string;
  rp_Path : string;
  rp_Interval : Z
}.

Module ProxyGroup.
Record t := mk {
  Name : string;
  Type_ : string;
  Proxies : list string
}.
End ProxyGroup.

Module ClashConfig.
Record t := mk {
  Port : Z;
  SocksPort : Z;
  AllowLan : bool;
  Mode : string;
  LogLevel : string;
  ExternalCtrl : string;
  Proxies : list ClashProxy.t;
  ProxyGroups : list ProxyGroup.t;
  RulesProviders : option (gmap string RulesProvider);
  Rules : list string
}.
End ClashConfig.

(** The function-local [TemplateConfig] of [createDefaultClashConfig].
    A group is a [map[string]interface{}] that is only read. *)
Module TemplateConfig.
Record t := mk {
  Port : Z;
  SocksPort : Z;
  AllowLan : bool;
  Mode : string;
  LogLevel : string;
  ExternalCtrl : string;
  RuleProviders : option (gmap string RulesProvider);
  Rules : list string;
  ProxyGroups : list (gmap string iface)
}.
End TemplateConfig.

(** ** Logging and process exit *)

(** A computation appends to the process log and either returns or ends
    the process ([log.Fatalf] calls [os.Exit(1)]). *)
Inductive Outcome (A : Type) : Type :=
| Ret (a : A)
| Exit (code : Z).
Arguments Ret {A} a.
Arguments Exit {A} code.

Definition M (A : Type) : Type := list string -> Outcome A * list string.

Definition ret {A} (a : A) : M A := fun lg => (Ret a, lg).

Definition bind {A B} (m : M A) (k : A -> M B) : M B :=
  fun lg =>
    match m lg with
    | (Ret a, lg') => k a lg'
    | (Exit c, lg') => (Exit c, lg')
    end.

Notation "'let*' x ':=' m 'in' k" := (bind m (fun x => k))
  (at level 10, x name, m at level 100, k at level 200).

Definition log_Printf (msg : string) : M unit :=
  fun lg => (Ret tt, (lg ++ [msg])%list).

Definition log_Fatalf {A} (msg : string) : M A :=
  fun lg => (Exit 1, (lg ++ [msg])%list).

(** ** The [strings] functions the orchestrator calls *)

Module strings.

Definition HasPrefix (s prefix : string) : bool :=
  (String.length prefix <=? String.length s)%nat
  && String.eqb (substring 0 (String.length prefix) s) prefix.

Definition TrimPrefix (s prefix : string) : string :=
  if HasPrefix s prefix
  then substring (String.length prefix)
         (String.length s - String.length prefix) s
  else s.

(** [Split(s, sep)] for a one-byte separator: one more piece than
    there are separators. *)
Fixpoint Split (s : string) (sep : ascii) : list string :=
  match s with
  | EmptyString => [EmptyString]
  | String ch s' =>
      if Ascii.eqb ch sep then EmptyString :: Split s' sep
      else match Split s' sep with
           | piece :: rest => String ch piece :: rest
           | [] => [String ch EmptyString]
           end
  end.

End strings.

Definition newline : ascii := ascii_of_nat 10.

(** ** What the program gets from outside

    The subscription address, the network, the file system and the
    library codecs.  [http_Get] yields the result of [io.ReadAll] on the
    response body when the request itself succeeded.  [strings.TrimSpace]
    is among them because it trims Unicode white space, which takes the
    UTF-8 decoder; no property below depends on what it removes. *)
Record Env := {
  Global_Url : string;
  http_Get : string -> Result (Result string);
  base64_DecodeString : string -> Result string;
  json_Unmarshal : string -> Result VmessNode.t;
  strings_TrimSpace : string -> string;
  os_ReadFile : string -> Result string;
  yaml_Unmarshal : string -> Result TemplateConfig.t;
  yaml_Marshal : ClashConfig.t -> Result string
}.

(** ** Node mapper *)

Definition ws_headers (host : string) : gmap string string :=
  <["Host" := host]> ∅.

Definition ws_opts (path host : string) : gmap string iface :=
  <["headers" := IMapStrStr (ws_headers host)]>
    (<["path" := IString path]> ∅).

Definition convertVmessToClashProxy (node : VmessNode.t) : Result ClashProxy.t :=
  match strconv.Atoi (VmessNode.Port node) with
  | inl _ => Err ("invalid port: " ++ VmessNode.Port node)
  | inr port =>
      let proxy :=
        {| ClashProxy.Name := VmessNode.PS node;
           ClashProxy.Type_ := "vmess";
           ClashProxy.Server := VmessNode.Add node;
           ClashProxy.Port := port;
           ClashProxy.UUID := VmessNode.ID node;
           ClashProxy.AlterID := VmessNode.Aid node;
           ClashProxy.Cipher := "auto";
           ClashProxy.TLS := String.eqb (VmessNode.TLS node) "tls";
           ClashProxy.SkipCert := true;
           ClashProxy.Network := VmessNode.Net node;
           ClashProxy.WSOpts := None |} in
      if String.eqb (VmessNode.Net node) "ws" then
        Ok {| ClashProxy.Name := ClashProxy.Name proxy;
              ClashProxy.Type_ := ClashProxy.Type_ proxy;
              ClashProxy.Server := ClashProxy.Server proxy;
              ClashProxy.Port := ClashProxy.Port proxy;
              ClashProxy.UUID := ClashProxy.UUID proxy;
              ClashProxy.AlterID := ClashProxy.AlterID proxy;
              ClashProxy.Cipher := ClashProxy.Cipher proxy;
              ClashProxy.TLS := ClashProxy.TLS proxy;
              ClashProxy.SkipCert := ClashProxy.SkipCert proxy;
              ClashProxy.Network := ClashProxy.Network proxy;
              ClashProxy.WSOpts :=
                Some (ws_opts (VmessNode.Path node) (VmessNode.Host node)) |}
      else Ok proxy
  end.

(** The mapping node the YAML encoder builds for a [ClashProxy], read
    off the struct tags: every field under its key, in declaration
    order, an [omitempty] field left out when it is empty (a string of
    length zero, a map that is nil or has no entry). *)
Definition yaml_fields (p : ClashProxy.t) : list (string * iface) :=
  ([("name", IString (ClashProxy.Name p));
    ("type", IString (ClashProxy.Type_ p));
    ("server", IString (ClashProxy.Server p));
    ("port", IInt (ClashProxy.Port p));
    ("uuid", IString (ClashProxy.UUID p));
    ("alterId", IInt (ClashProxy.AlterID p));
    ("cipher", IString (ClashProxy.Cipher p));
    ("tls", IBool (ClashProxy.TLS p))]
   ++ (if String.eqb (ClashProxy.Network p) "" then []
       else [("network", IString (ClashProxy.Network p))])
   ++ match ClashProxy.WSOpts p with
      | Some m => if decide (m = ∅) then [] else [("ws-opts", IMapStrIface m)]
      | None => []
      end
   ++ [("skip-cert-verify", IBool (ClashProxy.SkipCert p))])%list.

(** ** Template merger *)

(** The type switch on a group's [proxies] field. *)
Fixpoint string_items (pList : list iface) : list string :=
  match pList with
  | [] => []
  | IString s :: rest => s :: string_items rest
  | _ :: rest => string_items rest
  end.

Definition group_proxies (g : gmap string iface) (proxyNames : list string)
  : list string :=
  let '(p, ok) := assert_string (g !! "proxies") in
  if ok && String.eqb p "${proxies}" then proxyNames
  else
    let '(pList, ok) := assert_slice (g !! "proxies") in
    if ok then string_items pList else [].

Definition convert_group (proxyNames : list string) (g : gmap string iface)
  : ProxyGroup.t :=
  let '(name, _) := assert_string (g !! "name") in
  let '(typ, _) := assert_string (g !! "type") in
  {| ProxyGroup.Name := name;
     ProxyGroup.Type_ := typ;
     ProxyGroup.Proxies := group_proxies g proxyNames |}.

(** The loop over [tmpl.ProxyGroups], appending one group per turn. *)
Fixpoint convert_groups (proxyNames : list string)
    (groups : list (gmap string iface)) (proxyGroups : list ProxyGroup.t)
  : list ProxyGroup.t :=
  match groups with
  | [] => proxyGroups
  | g :: rest =>
      convert_groups proxyNames rest
        (proxyGroups ++ [convert_group proxyNames g])%list
  end.

Definition default_config (proxies : list ClashProxy.t)
    (proxyNames : list string) : ClashConfig.t :=
  {| ClashConfig.Port := 7890;
     ClashConfig.SocksPort := 7891;
     ClashConfig.AllowLan := true;
     ClashConfig.Mode := "Rule";
     ClashConfig.LogLevel := "info";
     ClashConfig.ExternalCtrl := "127.0.0.1:9090";
     ClashConfig.Proxies := proxies;
     ClashConfig.ProxyGroups :=
       [ {| ProxyGroup.Name := "PROXY";
            ProxyGroup.Type_ := "select";
            ProxyGroup.Proxies := (["DIRECT"; "REJECT"] ++ proxyNames)%list |} ];
     ClashConfig.RulesProviders := None;
     ClashConfig.Rules := ["MATCH,DIRECT"] |}.

Definition merged_config (tmpl : TemplateConfig.t)
    (proxies : list ClashProxy.t) (proxyNames : list string) : ClashConfig.t :=
  {| ClashConfig.Port := TemplateConfig.Port tmpl;
     ClashConfig.SocksPort := TemplateConfig.SocksPort tmpl;
     ClashConfig.AllowLan := TemplateConfig.AllowLan tmpl;
     ClashConfig.Mode := TemplateConfig.Mode tmpl;
     ClashConfig.LogLevel := TemplateConfig.LogLevel tmpl;
     ClashConfig.ExternalCtrl := TemplateConfig.ExternalCtrl tmpl;
     ClashConfig.Proxies := proxies;
     ClashConfig.ProxyGroups :=
       convert_groups proxyNames (TemplateConfig.ProxyGroups tmpl) [];
     ClashConfig.RulesProviders := TemplateConfig.RuleProviders tmpl;
     ClashConfig.Rules := TemplateConfig.Rules tmpl |}.

(** ** The response the handler builds

    The calls made on the [gin.Context], in order. *)
Inductive GinCall : Type :=
| CallJSON (code : Z) (obj : gmap string iface)
| CallHeader (key value : string)
| CallData (code : Z) (contentType : string) (data : string).

Definition Context := list GinCall.

Definition http_StatusOK : Z := 200.
Definition http_StatusInternalServerError : Z := 500.

(** The header value [attachment; filename=...] with [out.yaml] between
    double quotes. *)
Definition attachment_out_yaml : string :=
  "attachment; filename=" ++ String (ascii_of_nat 34)
    ("out.yaml" ++ String (ascii_of_nat 34) EmptyString).

Definition gin_H_error (msg : string) : gmap string iface :=
  <["error" := IString msg]> ∅.

(** The padding of a vmess payload to a multiple of four bytes. *)
Fixpoint pad_loop (padding_needed : nat) (vmessBase64 : string) : string :=
  match padding_needed with
  | O => vmessBase64
  | S k => pad_loop k (vmessBase64 ++ "=")
  end.

Definition pad_vmess (vmessBase64 : string) : string :=
  if negb (Nat.eqb (String.length vmessBase64 mod 4) 0) then
    pad_loop (4 - String.length vmessBase64 mod 4) vmessBase64
  else vmessBase64.

Section Pipeline.

Variable env : Env.

Definition createDefaultClashConfig (proxies : list ClashProxy.t)
    (proxyNames : list string) : M ClashConfig.t :=
  match os_ReadFile env "resources/out-template.yaml" with
  | Err err =>
      let* _ := log_Printf ("Error reading template file: " ++ err
                            ++ ", using hardcoded defaults") in
      ret (default_config proxies proxyNames)
  | Ok f =>
      match yaml_Unmarshal env f with
      | Err err => log_Fatalf ("Error parsing template: " ++ err)
      | Ok tmpl => ret (merged_config tmpl proxies proxyNames)
      end
  end.

(** One turn of the loop over the node links; [continue] leaves the
    two accumulators as they are. *)
Definition process_link (link : string)
    (acc : list ClashProxy.t * list string)
  : M (list ClashProxy.t * list string) :=
  let link := strings_TrimSpace env link in
  if strings.HasPrefix link "vmess://" then
    let vmessBase64 := pad_vmess (strings.TrimPrefix link "vmess://") in
    match base64_DecodeString env vmessBase64 with
    | Err err =>
        let* _ := log_Printf
          ("Warning: Failed to decode vmess link, skipping: " ++ err) in
        ret acc
    | Ok vmessJSON =>
        match json_Unmarshal env vmessJSON with
        | Err err =>
            let* _ := log_Printf
              ("Warning: Failed to unmarshal vmess JSON, skipping: " ++ err) in
            ret acc
        | Ok node =>
            match convertVmessToClashProxy node with
            | Err err =>
                let* _ := log_Printf
                  ("Warning: Failed to convert vmess node '"
                   ++ VmessNode.PS node ++ "', skipping: " ++ err) in
                ret acc
            | Ok proxy =>
                ret ((fst acc ++ [proxy])%list,
                     (snd acc ++ [ClashProxy.Name proxy])%list)
            end
        end
    end
  else ret acc.

Fixpoint process_links (nodeLinks : list string)
    (acc : list ClashProxy.t * list string)
  : M (list ClashProxy.t * list string) :=
  match nodeLinks with
  | [] => ret acc
  | link :: rest =>
      let* acc' := process_link link acc in
      process_links rest acc'
  end.

Definition processConvert : M (Result string) :=
  let* _ := log_Printf
    ("Fetching subscription content from: " ++ Global_Url env) in
  match http_Get env (Global_Url env) with
  | Err err => ret (Err ("failed to fetch subscription URL: " ++ err))
  | Ok (Err err) =>
      ret (Err ("failed to read subscription response body: " ++ err))
  | Ok (Ok body) =>
      match base64_DecodeString env body with
      | Err err =>
          ret (Err ("failed to decode base64 subscription content: " ++ err))
      | Ok decodedBody =>
          let nodeLinks := strings.Split decodedBody newline in
          let* acc := process_links nodeLinks ([], []) in
          let '(clashProxies, proxyNames) := acc in
          if Nat.eqb (List.length clashProxies) 0 then
            ret (Err "no valid vmess nodes found in the subscription")
          else
            let* _ := log_Printf
              ("Successfully converted "
               ++ pretty (List.length clashProxies) ++ " nodes.") in
            let* clashConfig :=
              createDefaultClashConfig clashProxies proxyNames in
            match yaml_Marshal env clashConfig with
            | Err err =>
                ret (Err ("failed to marshal clash config to YAML: " ++ err))
            | Ok yamlData => ret (Ok yamlData)
            end
      end
  end.

(** [data] is nil when [processConvert] returns an error. *)
Definition processConfig (c : Context) : M Context :=
  let* r := processConvert in
  let data := match r with Ok d => d | Err _ => "" end in
  let c1 :=
    match r with
    | Err msg =>
        (c ++ [CallJSON http_StatusInternalServerError (gin_H_error msg)])%list
    | Ok _ => c
    end in
  let c2 := (c1 ++ [CallHeader "Content-Type" "application/x-yaml"])%list in
  let c3 := (c2 ++ [CallHeader "Content-Disposition"
                      attachment_out_yaml])%list in
  ret (c3 ++ [CallData http_StatusOK "application/x-yaml" data])%list.

End Pipeline.

(** ** The per-link step as a function of the link alone

    What one turn of the loop does with a link: nothing, a warning, or
    one more entry. *)
Inductive LinkResult : Type :=
| Ignored
| Skipped (warning : string)
| Mapped (proxy : ClashProxy.t).

Definition decode_map (env : Env) (link : string) : LinkResult :=
  let link := strings_TrimSpace env link in
  if strings.HasPrefix link "vmess://" then
    match base64_DecodeString env
            (pad_vmess (strings.TrimPrefix link "vmess://")) with
    | Err err =>
        Skipped ("Warning: Failed to decode vmess link, skipping: " ++ err)
    | Ok vmessJSON =>
        match json_Unmarshal env vmessJSON with
        | Err err =>
            Skipped ("Warning: Failed to unmarshal vmess JSON, skipping: " ++ err)
        | Ok node =>
            match convertVmessToClashProxy node with
            | Err err =>
                Skipped ("Warning: Failed to convert vmess node '"
                         ++ VmessNode.PS node ++ "', skipping: " ++ err)
            | Ok proxy => Mapped proxy
            end
        end
    end
  else Ignored.

Definition mapped (r : LinkResult) : option ClashProxy.t :=
  match r with Mapped p => Some p | _ => None end.

Definition warned (r : LinkResult) : option string :=
  match r with Skipped w => Some w | _ => None end.

(** The entries of the links that decode and map, in the order of the
    links, and the warnings logged for the others. *)
Definition survivors (env : Env) (nodeLinks : list string) : list ClashProxy.t :=
  omap (fun link => mapped (decode_map env link)) nodeLinks.

Definition warnings (env : Env) (nodeLinks : list string) : list string :=
  omap (fun link => warned (decode_map env link)) nodeLinks.

Definition template_path : string := "resources/out-template.yaml".

Definition empty_result : string :=
  "no valid vmess nodes found in the subscription".

(** What [processConvert] returns once the document is built. *)
Definition marshal_result (env : Env) (cfg : ClashConfig.t) : Result string :=
  match yaml_Marshal env cfg with
  | Err err => Err ("failed to marshal clash config to YAML: " ++ err)
  | Ok yamlData => Ok yamlData
  end.

Definition fetch_msg (env : Env) : string :=
  "Fetching subscription content from: " ++ Global_Url env.

Definition success_msg (n : nat) : string :=
  "Successfully converted " ++ pretty n ++ " nodes.".


(** [k] padding characters. *)
Fixpoint padding (k : nat) : string :=
  match k with
  | O => EmptyString
  | S k' => String (ascii_of_nat 61) (padding k')
  end.

(** The link, once trimmed, carries the prefix, and its padded payload
    decodes to the JSON text of [node]. *)
Definition decodes_to (env : Env) (link : string) (node : VmessNode.t) : Prop :=
  strings.HasPrefix (strings_TrimSpace env link) "vmess://" = true /\
  exists vmessJSON,
    base64_DecodeString env
      (pad_vmess (strings.TrimPrefix (strings_TrimSpace env link) "vmess://"))
    = Ok vmessJSON /\
    json_Unmarshal env vmessJSON = Ok node.

(** The environment with another base64 decoder. *)
Definition with_base64 (env : Env) (dec : string -> Result string) : Env :=
  {| Global_Url := Global_Url env;
     http_Get := http_Get env;
     base64_DecodeString := dec;
     json_Unmarshal := json_Unmarshal env;
     strings_TrimSpace := strings_TrimSpace env;
     os_ReadFile := os_ReadFile env;
     yaml_Unmarshal := yaml_Unmarshal env;
     yaml_Marshal := yaml_Marshal env |}.

(** The integer a port field denotes for the mapper, if any. *)
Definition port_value (port : string) : option Z :=
  match decimal_integer port with
  | Some n => if in_int64 n then Some n else None
  | None => None
  end.

(** The keys of the mapping node of an entry. *)
Definition yaml_keys (p : ClashProxy.t) : list string := fst <$> yaml_fields p.

(** The string items of a list, in order. *)
Definition only_strings (l : list iface) : list string :=
  omap (fun v => match v with IString s => Some s | _ => None end) l.

(** The template is missing, or it is there and parses. *)
Definition template_usable (env : Env) : bool :=
  match os_ReadFile env template_path with
  | Err _ => true
  | Ok f => is_ok (yaml_Unmarshal env f)
  end.

(** ** A test environment

    Concrete stand-ins for the network, the file system and the codecs,
    on which the statements below are run.  The base64 decoder is the
    one of RFC 4648 with padding; the JSON and YAML decoders are given
    by their value on the documents of the examples. *)
Module Example.

Definition quote : ascii := ascii_of_nat 34.
Definition quoted (s : string) : string :=
  String quote (s ++ String quote EmptyString).

(** The JSON text of a node, keys in alphabetical order. *)
Definition vmess_json (n : VmessNode.t) : string :=
  "{" ++ quoted "add" ++ ":" ++ quoted (VmessNode.Add n)
  ++ "," ++ quoted "aid" ++ ":" ++ pretty (VmessNode.Aid n)
  ++ "," ++ quoted "host" ++ ":" ++ quoted (VmessNode.Host n)
  ++ "," ++ quoted "id" ++ ":" ++ quoted (VmessNode.ID n)
  ++ "," ++ quoted "net" ++ ":" ++ quoted (VmessNode.Net n)
  ++ "," ++ quoted "path" ++ ":" ++ quoted (VmessNode.Path n)
  ++ "," ++ quoted "port" ++ ":" ++ quoted (VmessNode.Port n)
  ++ "," ++ quoted "ps" ++ ":" ++ quoted (VmessNode.PS n)
  ++ "," ++ quoted "tls" ++ ":" ++ quoted (VmessNode.TLS n)
  ++ "," ++ quoted "type" ++ ":" ++ quoted (VmessNode.Type_ n)
  ++ "," ++ quoted "v" ++ ":" ++ quoted (VmessNode.V n) ++ "}".

Definition node_tcp : VmessNode.t :=
  VmessNode.mk "1.2.3.4" 0 "" "abc-123" "tcp" "" "443" "test-node"
    "tls" "none" "2".
Definition node_ws : VmessNode.t :=
  VmessNode.mk "5.6.7.8" 2 "cdn.example.com" "def-456" "ws" "/ray" "8443"
    "ws-node" "" "none" "2".
Definition node_zero : VmessNode.t :=
  VmessNode.mk "9.9.9.9" 0 "" "ghi-789" "tcp" "" "0" "zero-port"
    "" "none" "2".
Definition node_bad : VmessNode.t :=
  VmessNode.mk "9.9.9.9" 0 "" "jkl-000" "tcp" "" "http" "bad-port"
    "" "none" "2".

Definition json_decode (text : string) : Result VmessNode.t :=
  match List.find (fun n => String.eqb (vmess_json n) text)
          [node_tcp; node_ws; node_zero; node_bad] with
  | Some n => Ok n
  | None => Err "invalid character 'x' looking for beginning of value"
  end.

(** Base64, standard alphabet, padded. *)
Definition sextet (ch : ascii) : option N :=
  let c := N_of_ascii ch in
  if (65 <=? c)%N && (c <=? 90)%N then Some (c - 65)%N
  else if (97 <=? c)%N && (c <=? 122)%N then Some (c - 71)%N
  else if (48 <=? c)%N && (c <=? 57)%N then Some (c + 4)%N
  else if (c =? 43)%N then Some 62%N
  else if (c =? 47)%N then Some 63%N
  else None.

Definition pad : ascii := ascii_of_nat 61.

Fixpoint quanta (s : string) : option string :=
  match s with
  | EmptyString => Some EmptyString
  | String a (String b (String c (String d rest))) =>
      match sextet a, sextet b with
      | Some x, Some y =>
          let b1 := ascii_of_N (x * 4 + y / 16) in
          if Ascii.eqb c pad then
            if Ascii.eqb d pad && String.eqb rest EmptyString
            then Some (String b1 EmptyString) else None
          else
            match sextet c with
            | Some z =>
                let b2 := ascii_of_N ((y mod 16) * 16 + z / 4) in
                if Ascii.eqb d pad then
                  if String.eqb rest EmptyString
                  then Some (String b1 (String b2 EmptyString)) else None
                else
                  match sextet d, quanta rest with
                  | Some w, Some tail =>
                      let b3 := ascii_of_N ((z mod 4) * 64 + w) in
                      Some (String b1 (String b2 (String b3 tail)))
                  | _, _ => None
                  end
            | None => None
            end
      | _, _ => None
      end
  | _ => None
  end.

Definition base64_decode (s : string) : Result string :=
  match quanta s with
  | Some bytes => Ok bytes
  | None => Err "illegal base64 data"
  end.

(** [TrimSpace] on a string of ASCII characters. *)
Definition is_space (ch : ascii) : bool :=
  let c := nat_of_ascii ch in
  ((9 <=? c) && (c <=? 13) || (c =? 32))%nat.

Fixpoint trim_left (s : string) : string :=
  match s with
  | String ch s' => if is_space ch then trim_left s' else s
  | EmptyString => EmptyString
  end.

Fixpoint trim_right (s : string) : string :=
  match s with
  | EmptyString => EmptyString
  | String ch s' =>
      match trim_right s' with
      | EmptyString => if is_space ch then EmptyString
                       else String ch EmptyString
      | t => String ch t
      end
  end.

Definition trim_space (s : string) : string := trim_right (trim_left s).

(** Templates, in YAML flow style, and what the decoder makes of them. *)
Definition template_text : string :=
  "{port: 7890, socks-port: 7891, proxy-groups: "
  ++ "[{name: PROXY, type: select, proxies: '${proxies}'}, "
  ++ "{name: Static, type: select, proxies: [DIRECT, REJECT]}]}".

Definition template_parsed : TemplateConfig.t :=
  TemplateConfig.mk 7890 7891 false "" "" "" None []
    [ <["name" := IString "PROXY"]>
        (<["type" := IString "select"]>
           (<["proxies" := IString "${proxies}"]> ∅));
      <["name" := IString "Static"]>
        (<["type" := IString "select"]>
           (<["proxies" := ISlice [IString "DIRECT"; IString "REJECT"]]> ∅)) ].

Definition odd_template_text : string :=
  "{proxy-groups: [{name: 5, proxies: [a, 1, '${proxies}']}, "
  ++ "{name: G, type: select, proxies: other}]}".

Definition odd_template_parsed : TemplateConfig.t :=
  TemplateConfig.mk 0 0 false "" "" "" None []
    [ <["name" := IInt 5]>
        (<["proxies" :=
             ISlice [IString "a"; IInt 1; IString "${proxies}"]]> ∅);
      <["name" := IString "G"]>
        (<["type" := IString "select"]>
           (<["proxies" := IString "other"]> ∅)) ].

Definition broken_template_text : string := "port: [".

Definition yaml_decode (text : string) : Result TemplateConfig.t :=
  if String.eqb text template_text then Ok template_parsed
  else if String.eqb text odd_template_text then Ok odd_template_parsed
  else Err "yaml: line 1: did not find expected node content".

(** A rendering of the document that keeps the names of its entries. *)
Definition yaml_encode (cfg : ClashConfig.t) : Result string :=
  Ok ("proxies: ["
      ++ String.concat ", " (ClashProxy.Name <$> ClashConfig.Proxies cfg)
      ++ "]").

Definition url : string := "https://sub.example.com/link".

Definition mk_env (fetched : Result (Result string))
    (template : Result string) : Env :=
  {| Global_Url := url;
     http_Get := fun u =>
       if String.eqb u url then fetched
       else Err "unsupported protocol scheme";
     base64_DecodeString := base64_decode;
     json_Unmarshal := json_decode;
     strings_TrimSpace := trim_space;
     os_ReadFile := fun path =>
       if String.eqb path template_path then template
       else Err ("open " ++ path ++ ": no such file or directory");
     yaml_Unmarshal := yaml_decode;
     yaml_Marshal := yaml_encode |}.

Definition no_file : Result string :=
  Err "open resources/out-template.yaml: no such file or directory".

(** A subscription of four lines and a final line break: a vmess link
    whose padding was stripped, a link of another scheme, a vmess link
    with a port that is no number, and a websocket vmess link between
    blanks. *)
Definition subscription : string :=
  "dm1lc3M6Ly9leUpoWkdRaU9pSXhMakl1TXk0MElpd2lZV2xrSWpvd0xDSm9i"
  ++ "M04wSWpvaUlpd2lhV1FpT2lKaFltTXRNVEl6SWl3aWJtVjBJam9pZEdOd0lp"
  ++ "d2ljR0YwYUNJNklpSXNJbkJ2Y25RaU9pSTBORE1pTENKd2N5STZJblJsYzNR"
  ++ "dGJtOWtaU0lzSW5Sc2N5STZJblJzY3lJc0luUjVjR1VpT2lKdWIyNWxJaXdp"
  ++ "ZGlJNklqSWlmUQpzczovL1lXVnpMVEkxTmkxblkyMDZjR0Z6YzBBeExqRXVN"
  ++ "UzR4T2pnek9EZz0Kdm1lc3M6Ly9leUpoWkdRaU9pSTVMamt1T1M0NUlpd2lZ"
  ++ "V2xrSWpvd0xDSm9iM04wSWpvaUlpd2lhV1FpT2lKcWEyd3RNREF3SWl3aWJt"
  ++ "VjBJam9pZEdOd0lpd2ljR0YwYUNJNklpSXNJbkJ2Y25RaU9pSm9kSFJ3SWl3"
  ++ "aWNITWlPaUppWVdRdGNHOXlkQ0lzSW5Sc2N5STZJaUlzSW5SNWNHVWlPaUp1"
  ++ "YjI1bElpd2lkaUk2SWpJaWZRPT0KICB2bWVzczovL2V5SmhaR1FpT2lJMUxq"
  ++ "WXVOeTQ0SWl3aVlXbGtJam95TENKb2IzTjBJam9pWTJSdUxtVjRZVzF3YkdV"
  ++ "dVkyOXRJaXdpYVdRaU9pSmtaV1l0TkRVMklpd2libVYwSWpvaWQzTWlMQ0p3"
  ++ "WVhSb0lqb2lMM0poZVNJc0luQnZjblFpT2lJNE5EUXpJaXdpY0hNaU9pSjNj"
  ++ "eTF1YjJSbElpd2lkR3h6SWpvaUlpd2lkSGx3WlNJNkltNXZibVVpTENKMklq"
  ++ "b2lNaUo5DQo=".

(** A subscription with no usable node: the link of another scheme
    and the vmess link whose port is no number. *)
Definition barren_subscription : string :=
  "c3M6Ly9ZV1Z6TFRJMU5pMW5ZMjA2Y0dGemMwQXhMakV1TVM0eE9qZ3pPRGc9"
  ++ "CnZtZXNzOi8vZXlKaFpHUWlPaUk1TGprdU9TNDVJaXdpWVdsa0lqb3dMQ0pv"
  ++ "YjNOMElqb2lJaXdpYVdRaU9pSnFhMnd0TURBd0lpd2libVYwSWpvaWRHTndJ"
  ++ "aXdpY0dGMGFDSTZJaUlzSW5CdmNuUWlPaUpvZEhSd0lpd2ljSE1pT2lKaVlX"
  ++ "UXRjRzl5ZENJc0luUnNjeUk2SWlJc0luUjVjR1VpT2lKdWIyNWxJaXdpZGlJ"
  ++ "NklqSWlmUT09".

(** The payload of the first link, two characters short of padding. *)
Definition tcp_payload : string :=
  "eyJhZGQiOiIxLjIuMy40IiwiYWlkIjowLCJob3N0IjoiIiwiaWQiOiJhYmMt"
  ++ "MTIzIiwibmV0IjoidGNwIiwicGF0aCI6IiIsInBvcnQiOiI0NDMiLCJwcyI6"
  ++ "InRlc3Qtbm9kZSIsInRscyI6InRscyIsInR5cGUiOiJub25lIiwidiI6IjIi"
  ++ "fQ".

Definition env_fallback : Env := mk_env (Ok (Ok subscription)) no_file.
Definition env_template : Env :=
  mk_env (Ok (Ok subscription)) (Ok template_text).
Definition env_odd_template : Env :=
  mk_env (Ok (Ok subscription)) (Ok odd_template_text).
Definition env_broken_template : Env :=
  mk_env (Ok (Ok subscription)) (Ok broken_template_text).
Definition env_barren : Env :=
  mk_env (Ok (Ok barren_subscription)) (Ok template_text).
Definition env_offline : Env :=
  mk_env (Err "dial tcp: connection refused") (Ok template_text).

End Example.

(** ** Start-up and health check

    [config.go] in the version [main] calls, [Init()].  The viper
    library is seen through what its two calls return in this run:
    [ReadInConfig] an error or nil, the error being of type
    [ConfigFileNotFoundError] or not, and [Unmarshal] a configuration
    or an error. *)
Module Config.
Record t := mk { Url : string }.
End Config.

Inductive ViperError : Type :=
| ConfigFileNotFoundError (msg : string)
| OtherReadError (msg : string).

Definition viper_error_message (e : ViperError) : string :=
  match e with
  | ConfigFileNotFoundError msg => msg
  | OtherReadError msg => msg
  end.

Record ConfigEnv := {
  viper_ReadInConfig : option ViperError;
  viper_Unmarshal : Result Config.t
}.

(** [Init] returns the configuration or an error, and the value of the
    package variable [Global] when it returns: a nil pointer is [None]. *)
Definition Init (cenv : ConfigEnv) (Global : option Config.t)
  : M (Result Config.t * option Config.t) :=
  let after_read :=
    match viper_Unmarshal cenv with
    | Err err => ret (Err ("failed to unmarshal config: " ++ err), Global)
    | Ok config => ret (Ok config, Some config)
    end in
  match viper_ReadInConfig cenv with
  | Some (ConfigFileNotFoundError _) =>
      let* _ := log_Printf
        "Config file not found, using defaults and environment variables" in
      after_read
  | Some (OtherReadError msg) =>
      ret (Err ("failed to read config file: " ++ msg), Global)
  | None => after_read
  end.

Inductive Handler : Type := HealthCheck | ProcessConfig.

Inductive Middleware : Type :=
| Logger
| Recovery
| SetConfig (cfg : Config.t).

(** What [main] has set up when it calls [r.Run]. *)
Record Server := {
  srv_Global : option Config.t;
  srv_middleware : list Middleware;
  srv_routes : list (string * string * Handler);
  srv_addr : string
}.

Definition main (cenv : ConfigEnv) : M Server :=
  let* r := Init cenv None in
  match r with
  | (Err err, _) => log_Fatalf ("Failed to load config: " ++ err)
  | (Ok cfg, Global) =>
      ret {| srv_Global := Global;
             srv_middleware := [Logger; Recovery; SetConfig cfg];
             srv_routes := [("GET", "/health", HealthCheck);
                            ("GET", "/config", ProcessConfig)];
             srv_addr := ":8088" |}
  end.

(** [now] is [time.Now().Unix()]. *)
Definition healthCheck (env : Env) (now : Z) (c : Context) : Context :=
  (c ++ [CallJSON http_StatusOK
           (<["status" := IString "healthy"]>
              (<["timestamp" := IInt now]>
                 (<["config" := IString (Global_Url env)]> ∅)))])%list.

(** The environment with another network. *)
Definition with_http_Get (env : Env)
    (get : string -> Result (Result string)) : Env :=
  {| Global_Url := Global_Url env;
     http_Get := get;
     base64_DecodeString := base64_DecodeString env;
     json_Unmarshal := json_Unmarshal env;
     strings_TrimSpace := strings_TrimSpace env;
     os_ReadFile := os_ReadFile env;
     yaml_Unmarshal := yaml_Unmarshal env;
     yaml_Marshal := yaml_Marshal env |}.

(** The map the YAML decoder yields for a group written with a name, a
    type and a list of member names. *)
Definition group_map (pg : ProxyGroup.t) : gmap string iface :=
  <["name" := IString (ProxyGroup.Name pg)]>
    (<["type" := IString (ProxyGroup.Type_ pg)]>
       (<["proxies" := ISlice (IString <$> ProxyGroup.Proxies pg)]> ∅)).

(** The keys of an entry that are always serialized, up to [tls]. *)
Definition fixed_keys : list string :=
  ["name"; "type"; "server"; "port"; "uuid"; "alterId"; "cipher"; "tls"].

(** The messages of the errors [processConvert] returns. *)
Inductive ConvertError : string -> Prop :=
| FetchError err :
    ConvertError ("failed to fetch subscription URL: " ++ err)
| ReadError err :
    ConvertError ("failed to read subscription response body: " ++ err)
| DecodeError err :
    ConvertError ("failed to decode base64 subscription content: " ++ err)
| EmptyResult :
    ConvertError "no valid vmess nodes found in the subscription"
| SerializeError err :
    ConvertError ("failed to marshal clash config to YAML: " ++ err).

Module ExampleConfig.

Definition loaded : ConfigEnv :=
  {| viper_ReadInConfig := None;
     viper_Unmarshal := Ok (Config.mk Example.url) |}.

Definition no_config_file : ConfigEnv :=
  {| viper_ReadInConfig :=
       Some (ConfigFileNotFoundError "Config File config Not Found");
     viper_Unmarshal := Ok (Config.mk EmptyString) |}.

Definition unreadable : ConfigEnv :=
  {| viper_ReadInConfig :=
       Some (OtherReadError "While parsing config: yaml: line 1: did not find expected key");
     viper_Unmarshal := Ok (Config.mk EmptyString) |}.

End ExampleConfig.

(** * Properties *)

(** ** [strconv.Atoi] accepts the decimal integers of 64 bits *)

Lemma code_range ch : 0 <= strconv.code ch < 256.
Proof.
  unfold strconv.code. pose proof (nat_ascii_bounded ch). lia.
Qed.

Lemma byte_sub_digit ch :
  (9 <? strconv.byte_sub (strconv.code ch) 48) = negb (is_digit ch).
Proof.
  unfold strconv.byte_sub, is_digit. pose proof (code_range ch) as Hc.
  destruct (Z.leb_spec 48 (strconv.code ch)); simpl.
  - rewrite Z.mod_small by lia.
    destruct (Z.leb_spec (strconv.code ch) 57), (Z.ltb_spec 9 (strconv.code ch - 48));
      simpl; try reflexivity; lia.
  - assert (E : (strconv.code ch - 48) mod 256 = strconv.code ch + 208).
    { symmetry. apply Z.mod_unique with (q := -1); lia. }
    rewrite E.
    destruct (Z.ltb_spec 9 (strconv.code ch + 208)); [reflexivity | lia].
Qed.

Lemma byte_sub_value ch :
  is_digit ch = true -> strconv.byte_sub (strconv.code ch) 48 = strconv.code ch - 48.
Proof.
  unfold is_digit, strconv.byte_sub. intros H.
  apply andb_true_iff in H as [H1 H2].
  apply Z.leb_le in H1, H2. apply Z.mod_small. lia.
Qed.

Lemma digits_value_ge s : forall acc m,
  0 <= acc -> digits_value s acc = Some m -> acc <= m.
Proof.
  induction s as [|ch s IH]; intros acc m Hacc; simpl.
  - intros [= <-]. lia.
  - destruct (is_digit ch) eqn:Hd; [|discriminate].
    intros H. apply IH in H.
    + unfold is_digit in Hd. apply andb_true_iff in Hd as [H1 H2].
      apply Z.leb_le in H1, H2. lia.
    + unfold is_digit in Hd. apply andb_true_iff in Hd as [H1 H2].
      apply Z.leb_le in H1, H2. lia.
Qed.

Lemma wrap64_small z : - 2 ^ 63 <= z < 2 ^ 63 -> strconv.wrap64 z = z.
Proof.
  intros H. unfold strconv.wrap64. rewrite Z.mod_small; lia.
Qed.

Lemma fast_loop_digits s : forall n,
  0 <= n ->
  (n + 1) * 10 ^ Z.of_nat (String.length s) <= 2 ^ 63 ->
  strconv.fast_loop s n = digits_value s n.
Proof.
  induction s as [|ch s IH]; intros n Hn Hb; [reflexivity|].
  cbn [strconv.fast_loop digits_value]. rewrite byte_sub_digit.
  destruct (is_digit ch) eqn:Hd; [|reflexivity]. cbn [negb].
  rewrite byte_sub_value by assumption.
  assert (Hdig : 0 <= strconv.code ch - 48 <= 9).
  { unfold is_digit in Hd. apply andb_true_iff in Hd as [H1 H2].
    apply Z.leb_le in H1, H2. lia. }
  cbn [String.length] in Hb. rewrite Nat2Z.inj_succ, Z.pow_succ_r in Hb by lia.
  assert (Hp : 1 <= 10 ^ Z.of_nat (String.length s)).
  { pose proof (Z.pow_pos_nonneg 10 (Z.of_nat (String.length s))). lia. }
  rewrite wrap64_small by nia.
  apply IH; nia.
Qed.

Lemma digits_value_bound s : forall n m,
  0 <= n -> digits_value s n = Some m ->
  m < (n + 1) * 10 ^ Z.of_nat (String.length s).
Proof.
  induction s as [|ch s IH]; intros n m Hn; simpl digits_value.
  - intros [= <-]. cbn. lia.
  - destruct (is_digit ch) eqn:Hd; [|discriminate].
    assert (Hdig : 0 <= strconv.code ch - 48 <= 9).
    { unfold is_digit in Hd. apply andb_true_iff in Hd as [H1 H2].
      apply Z.leb_le in H1, H2. lia. }
    intros H. apply IH in H; [|lia].
    cbn [String.length]. rewrite Nat2Z.inj_succ, Z.pow_succ_r by lia.
    assert (Hp : 1 <= 10 ^ Z.of_nat (String.length s)).
    { pose proof (Z.pow_pos_nonneg 10 (Z.of_nat (String.length s))). lia. }
    nia.
Qed.

Lemma uint_loop_digits s : forall n m,
  0 <= n <= strconv.maxUint64 ->
  strconv.uint_loop s n = inr m <->
  digits_value s n = Some m /\ m <= strconv.maxUint64.
Proof.
  induction s as [|ch s IH]; intros n m Hn.
  - simpl. split; [intros [= <-]; split; [reflexivity|lia] | intros [[= <-] _]; reflexivity].
  - cbn [strconv.uint_loop digits_value]. fold (is_digit ch).
    destruct (is_digit ch) eqn:Hd; [|split; [discriminate | intros [? _]; discriminate]].
    assert (Hdig : 0 <= strconv.code ch - 48 <= 9).
    { unfold is_digit in Hd. apply andb_true_iff in Hd as [H1 H2].
      apply Z.leb_le in H1, H2. lia. }
    cbv zeta. unfold strconv.maxUint64 in *.
    change (2 ^ 64) with 18446744073709551616 in *.
    change ((18446744073709551616 - 1) / 10 + 1) with 1844674407370955162.
    destruct (Z.leb_spec 1844674407370955162 n) as [Hc|Hc].
    + split; [discriminate|]. intros [Hv Hm].
      apply digits_value_ge in Hv; lia.
    + destruct (Z_lt_le_dec (n * 10 + (strconv.code ch - 48)) 18446744073709551616) as [Hs|Hs].
      * rewrite Z.mod_small by lia.
        destruct (Z.ltb_spec (n * 10 + (strconv.code ch - 48)) (n * 10)); [lia|].
        destruct (Z.ltb_spec (18446744073709551616 - 1) (n * 10 + (strconv.code ch - 48))); [lia|].
        cbn [orb]. apply IH. lia.
      * assert (E : (n * 10 + (strconv.code ch - 48)) mod 18446744073709551616
                    = n * 10 + (strconv.code ch - 48) - 18446744073709551616).
        { symmetry. apply Z.mod_unique with (q := 1); lia. }
        rewrite E.
        destruct (Z.ltb_spec (n * 10 + (strconv.code ch - 48) - 18446744073709551616) (n * 10)); [|lia].
        cbn [orb]. split; [discriminate|]. intros [Hv Hm].
        apply digits_value_ge in Hv; lia.
Qed.

Lemma ParseUint_digits body m :
  strconv.ParseUint body = inr m <->
  body <> EmptyString /\ digits_value body 0 = Some m /\ m <= strconv.maxUint64.
Proof.
  destruct body as [|ch s].
  - simpl. split; [discriminate | intros [H _]; congruence].
  - unfold strconv.ParseUint. rewrite uint_loop_digits.
    + split; [intros H; split; [discriminate | exact H] | intros [_ H]; exact H].
    + unfold strconv.maxUint64. lia.
Qed.

Lemma decimal_integer_split s :
  decimal_integer s =
  match split_sign s with
  | (_, EmptyString) => None
  | (neg, body) =>
      (fun m => if neg then - m else m) <$> digits_value body 0
  end.
Proof.
  destruct s as [|ch s']; [reflexivity|].
  unfold decimal_integer, split_sign.
  destruct (Ascii.eqb ch "-"); [destruct s'; reflexivity|].
  destruct (Ascii.eqb ch "+").
  - destruct s'; [reflexivity|]. by destruct (digits_value _ _).
  - by destruct (digits_value _ _).
Qed.

Lemma ParseInt_decimal s n :
  strconv.ParseInt s = inr n <->
  decimal_integer s = Some n /\ in_int64 n = true.
Proof.
  rewrite decimal_integer_split. unfold in_int64.
  destruct s as [|ch s'].
  - simpl. split; [discriminate | intros [? _]; discriminate].
  - unfold strconv.ParseInt, split_sign.
    assert (Hcases :
      (if Ascii.eqb ch "+" then (false, s')
       else if Ascii.eqb ch "-" then (true, s') else (false, String ch s'))
      = (if Ascii.eqb ch "-" then (true, s')
         else if Ascii.eqb ch "+" then (false, s') else (false, String ch s'))).
    { destruct (Ascii.eqb_spec ch "+") as [->|]; [reflexivity|].
      reflexivity. }
    rewrite Hcases. clear Hcases.
    destruct (if Ascii.eqb ch "-" then (true, s')
              else if Ascii.eqb ch "+" then (false, s')
              else (false, String ch s')) as [neg body].
    destruct (strconv.ParseUint body) as [e|un] eqn:Hu.
    + assert (Hno : forall m, ~ (body <> EmptyString /\ digits_value body 0 = Some m
                                 /\ m <= strconv.maxUint64)).
      { intros m Hm. apply ParseUint_digits in Hm. congruence. }
      split; [destruct e; discriminate|].
      intros [Hv Hr]. exfalso.
      destruct body as [|c b]; [discriminate|].
      destruct (digits_value (String c b) 0) as [m|] eqn:Hd; [|discriminate].
      injection Hv as <-. apply (Hno m). split; [discriminate|]. split; [reflexivity|].
      apply andb_true_iff in Hr as [H1 H2]. apply Z.leb_le in H1, H2.
      apply digits_value_ge in Hd; [|lia]. unfold strconv.maxUint64.
      destruct neg; lia.
    + apply ParseUint_digits in Hu as (Hne & Hd & Hmax).
      pose proof (digits_value_ge _ _ _ (Z.le_refl 0) Hd) as Hpos.
      destruct body as [|c b]; [congruence|]. rewrite Hd. simpl fmap.
      change (2 ^ 63) with 9223372036854775808.
      destruct neg; cbn [negb andb].
      * destruct (Z.ltb_spec 9223372036854775808 un).
        -- split; [discriminate|]. intros [[= <-] Hr].
           apply andb_true_iff in Hr as [H1 H2]. apply Z.leb_le in H1, H2. lia.
        -- split.
           ++ intros [= <-]. split; [reflexivity|].
              apply andb_true_iff. split; apply Z.leb_le; lia.
           ++ intros [[= <-] _]. reflexivity.
      * destruct (Z.leb_spec 9223372036854775808 un).
        -- split; [discriminate|]. intros [[= <-] Hr].
           apply andb_true_iff in Hr as [H1 H2]. apply Z.leb_le in H1, H2. lia.
        -- split.
           ++ intros [= <-]. split; [reflexivity|].
              apply andb_true_iff. split; apply Z.leb_le; lia.
           ++ intros [[= <-] _]. reflexivity.
Qed.

Lemma fast_path_digits body m :
  (String.length body <= 18)%nat ->
  strconv.fast_loop body 0 = digits_value body 0 /\
  (digits_value body 0 = Some m -> 0 <= m < 10 ^ 18).
Proof.
  intros Hlen.
  assert (Hp : 10 ^ Z.of_nat (String.length body) <= 10 ^ 18).
  { apply Z.pow_le_mono_r; lia. }
  split.
  - apply fast_loop_digits; [lia|]. change (2 ^ 63) with 9223372036854775808.
    change (10 ^ 18) with 1000000000000000000 in Hp. lia.
  - intros Hd. pose proof (digits_value_ge _ _ _ (Z.le_refl 0) Hd).
    apply digits_value_bound in Hd; lia.
Qed.

Theorem Atoi_decimal s n :
  strconv.Atoi s = inr n <->
  decimal_integer s = Some n /\ in_int64 n = true.
Proof.
  unfold strconv.Atoi. cbv zeta.
  destruct ((0 <? Z.of_nat (String.length s))
            && (Z.of_nat (String.length s) <? 19)) eqn:Hfast;
    [|apply ParseInt_decimal].
  apply andb_true_iff in Hfast as [H0 H19].
  apply Z.ltb_lt in H0, H19.
  rewrite decimal_integer_split. unfold in_int64, split_sign.
  destruct s as [|ch s']; [simpl in H0; lia|].
  cbn [String.length] in H19.
  change (10 ^ 18) with 1000000000000000000 in *.
  change (2 ^ 63) with 9223372036854775808 in *.
  assert (Hrange : forall m, 0 <= m < 1000000000000000000 ->
            (- 9223372036854775808 <=? m) && (m <=? 9223372036854775808 - 1) = true
            /\ (- 9223372036854775808 <=? - m) && (- m <=? 9223372036854775808 - 1) = true
            /\ strconv.wrap64 (- m) = - m).
  { intros m Hm. repeat split.
    - apply andb_true_iff; split; apply Z.leb_le; lia.
    - apply andb_true_iff; split; apply Z.leb_le; lia.
    - apply wrap64_small. change (2 ^ 63) with 9223372036854775808. lia. }
  destruct (Ascii.eqb ch "-") eqn:Hm; [|destruct (Ascii.eqb ch "+") eqn:Hp];
    cbn [orb andb].
  - destruct s' as [|c b]; [simpl; split; [discriminate|intros [? _]; discriminate]|].
    change ((String.length (String c b) <? 1)%nat) with false. cbv iota.
    destruct (fast_path_digits (String c b) 0) as [-> _]; [simpl in *; lia|].
    destruct (digits_value (String c b) 0) as [m|] eqn:Hd;
      [|split; [discriminate|intros [? _]; discriminate]].
    destruct (fast_path_digits (String c b) m) as [_ Hb]; [simpl in *; lia|].
    specialize (Hb Hd). destruct (Hrange m Hb) as (_ & Hr & Hw).
    rewrite Hw. simpl fmap.
    split; [intros [= <-]; split; [reflexivity|exact Hr] | intros [[= <-] _]; reflexivity].
  - destruct s' as [|c b]; [simpl; split; [discriminate|intros [? _]; discriminate]|].
    change ((String.length (String c b) <? 1)%nat) with false. cbv iota.
    destruct (fast_path_digits (String c b) 0) as [-> _]; [simpl in *; lia|].
    destruct (digits_value (String c b) 0) as [m|] eqn:Hd;
      [|split; [discriminate|intros [? _]; discriminate]].
    destruct (fast_path_digits (String c b) m) as [_ Hb]; [simpl in *; lia|].
    specialize (Hb Hd). destruct (Hrange m Hb) as (Hr & _ & _).
    simpl fmap.
    split; [intros [= <-]; split; [reflexivity|exact Hr] | intros [[= <-] _]; reflexivity].
  - destruct (fast_path_digits (String ch s') 0) as [-> _]; [simpl in *; lia|].
    destruct (digits_value (String ch s') 0) as [m|] eqn:Hd;
      [|split; [discriminate|intros [? _]; discriminate]].
    destruct (fast_path_digits (String ch s') m) as [_ Hb]; [simpl in *; lia|].
    specialize (Hb Hd). destruct (Hrange m Hb) as (Hr & _ & _).
    simpl fmap.
    split; [intros [= <-]; split; [reflexivity|exact Hr] | intros [[= <-] _]; reflexivity].
Qed.

(** ** The loop over the links *)

Lemma process_link_decode_map env link acc lg :
  process_link env link acc lg =
  match decode_map env link with
  | Ignored => (Ret acc, lg)
  | Skipped w => (Ret acc, (lg ++ [w])%list)
  | Mapped p =>
      (Ret ((fst acc ++ [p])%list, (snd acc ++ [ClashProxy.Name p])%list), lg)
  end.
Proof.
  unfold process_link, decode_map.
  destruct (strings.HasPrefix _ _); [|reflexivity].
  destruct (base64_DecodeString env _) as [js|e]; [|reflexivity].
  destruct (json_Unmarshal env js) as [node|e]; [|reflexivity].
  destruct (convertVmessToClashProxy node); reflexivity.
Qed.

Lemma process_links_survivors env nodeLinks : forall acc lg,
  process_links env nodeLinks acc lg =
  (Ret ((fst acc ++ survivors env nodeLinks)%list,
        (snd acc ++ (ClashProxy.Name <$> survivors env nodeLinks))%list),
   (lg ++ warnings env nodeLinks)%list).
Proof.
  induction nodeLinks as [|link rest IH]; intros [ps ns] lg; simpl.
  - unfold ret. by rewrite !app_nil_r.
  - unfold bind. rewrite process_link_decode_map.
    unfold survivors, warnings in *. simpl.
    destruct (decode_map env link) as [|w|p]; simpl; rewrite IH; simpl.
    + reflexivity.
    + by rewrite <- app_assoc.
    + by rewrite <- !app_assoc.
Qed.

(** ** The orchestrator once the subscription is fetched and decoded *)

Lemma processConvert_decoded env body decodedBody lg :
  http_Get env (Global_Url env) = Ok (Ok body) ->
  base64_DecodeString env body = Ok decodedBody ->
  processConvert env lg =
  let nodeLinks := strings.Split decodedBody newline in
  let ps := survivors env nodeLinks in
  let lg1 := (lg ++ [fetch_msg env] ++ warnings env nodeLinks)%list in
  match ps with
  | [] => (Ret (Err empty_result), lg1)
  | _ :: _ =>
      match createDefaultClashConfig env ps (ClashProxy.Name <$> ps)
              (lg1 ++ [success_msg (List.length ps)])%list with
      | (Ret cfg, lg2) => (Ret (marshal_result env cfg), lg2)
      | (Exit code, lg2) => (Exit code, lg2)
      end
  end.
Proof.
  intros Hget Hdec. unfold processConvert, bind at 1, log_Printf.
  rewrite Hget, Hdec. unfold bind at 1.
  rewrite process_links_survivors. cbn [fst snd]. rewrite !app_nil_l.
  cbv zeta. rewrite <- app_assoc. fold (fetch_msg env).
  destruct (survivors env _) as [|p ps] eqn:Hs; [reflexivity|].
  cbn [List.length Nat.eqb]. unfold bind, log_Printf, marshal_result.
  fold (success_msg (S (List.length ps))).
  destruct (createDefaultClashConfig env _ _ _) as [[cfg|code] lg2];
    [|reflexivity].
  destruct (yaml_Marshal env cfg); reflexivity.
Qed.

(** ** The merger on its three kinds of template *)

Lemma createDefault_unreadable env proxies proxyNames err lg :
  os_ReadFile env template_path = Err err ->
  createDefaultClashConfig env proxies proxyNames lg =
  (Ret (default_config proxies proxyNames),
   (lg ++ ["Error reading template file: " +:+ err
           +:+ ", using hardcoded defaults"])%list).
Proof.
  intros H. unfold createDefaultClashConfig. fold template_path.
  rewrite H. reflexivity.
Qed.

Lemma createDefault_malformed env proxies proxyNames f err lg :
  os_ReadFile env template_path = Ok f ->
  yaml_Unmarshal env f = Err err ->
  createDefaultClashConfig env proxies proxyNames lg =
  (Exit 1, (lg ++ ["Error parsing template: " +:+ err])%list).
Proof.
  intros H1 H2. unfold createDefaultClashConfig. fold template_path.
  rewrite H1, H2. reflexivity.
Qed.

Lemma createDefault_parsed env proxies proxyNames f tmpl lg :
  os_ReadFile env template_path = Ok f ->
  yaml_Unmarshal env f = Ok tmpl ->
  createDefaultClashConfig env proxies proxyNames lg =
  (Ret (merged_config tmpl proxies proxyNames), lg).
Proof.
  intros H1 H2. unfold createDefaultClashConfig. fold template_path.
  rewrite H1, H2. reflexivity.
Qed.

Lemma convert_groups_map proxyNames groups : forall proxyGroups,
  convert_groups proxyNames groups proxyGroups =
  (proxyGroups ++ (convert_group proxyNames <$> groups))%list.
Proof.
  induction groups as [|g rest IH]; intros pgs; simpl.
  - by rewrite app_nil_r.
  - rewrite IH. by rewrite <- app_assoc.
Qed.

Lemma merged_groups_lookup tmpl proxies proxyNames i :
  ClashConfig.ProxyGroups (merged_config tmpl proxies proxyNames) !! i =
  convert_group proxyNames <$> (TemplateConfig.ProxyGroups tmpl !! i).
Proof.
  simpl. rewrite convert_groups_map. simpl. apply list_lookup_fmap.
Qed.



(** ** The model on concrete inputs *)

Example Atoi_plain : strconv.Atoi "443" = inr 443.
Proof. reflexivity. Qed.

Example Atoi_signs :
  strconv.Atoi "+7" = inr 7 /\ strconv.Atoi "-7" = inr (-7)
  /\ strconv.Atoi "-0" = inr 0.
Proof. repeat split; reflexivity. Qed.

Example Atoi_refuses :
  strconv.Atoi "" = inl strconv.ErrSyntax
  /\ strconv.Atoi "-" = inl strconv.ErrSyntax
  /\ strconv.Atoi " 80" = inl strconv.ErrSyntax
  /\ strconv.Atoi "80a" = inl strconv.ErrSyntax
  /\ strconv.Atoi "8_0" = inl strconv.ErrSyntax
  /\ strconv.Atoi "0x50" = inl strconv.ErrSyntax.
Proof. repeat split; reflexivity. Qed.

Example Atoi_slow_path :
  strconv.Atoi "0000000000000000000443" = inr 443
  /\ strconv.Atoi "9223372036854775807" = inr 9223372036854775807
  /\ strconv.Atoi "9223372036854775808" = inl strconv.ErrRange
  /\ strconv.Atoi "-9223372036854775808" = inr (-9223372036854775808)
  /\ strconv.Atoi "-9223372036854775809" = inl strconv.ErrRange
  /\ strconv.Atoi "99999999999999999999999" = inl strconv.ErrRange.
Proof. repeat split; vm_compute; reflexivity. Qed.

Example Split_lines :
  strings.Split ("a" ++ String newline ("b" ++ String newline "")) newline
  = ["a"; "b"; ""]
  /\ strings.Split "" newline = [""].
Proof. split; reflexivity. Qed.

Example TrimPrefix_vmess :
  strings.HasPrefix "vmess://abc" "vmess://" = true
  /\ strings.TrimPrefix "vmess://abc" "vmess://" = "abc"
  /\ strings.HasPrefix "vmess:/" "vmess://" = false
  /\ strings.TrimPrefix "ss://abc" "vmess://" = "ss://abc".
Proof. repeat split; reflexivity. Qed.

Example pad_vmess_lengths :
  pad_vmess "abcd" = "abcd" /\ pad_vmess "abcde" = "abcde==="
  /\ pad_vmess "abcdef" = "abcdef==" /\ pad_vmess "abcdefg" = "abcdefg="
  /\ pad_vmess "" = "".
Proof. repeat split; reflexivity. Qed.

(** The end-to-end example: the link of the node [test-node], with its
    padding stripped, gives one entry with no transport options. *)
Example end_to_end_entry :
  decode_map Example.env_fallback ("vmess://" ++ Example.tcp_payload)
  = Mapped (ClashProxy.mk "test-node" "vmess" "1.2.3.4" 443 "abc-123" 0
              "auto" true "tcp" None true)
  /\ yaml_keys (ClashProxy.mk "test-node" "vmess" "1.2.3.4" 443 "abc-123" 0
                  "auto" true "tcp" None true)
     = ["name"; "type"; "server"; "port"; "uuid"; "alterId"; "cipher"; "tls";
        "network"; "skip-cert-verify"].
Proof. split; vm_compute; reflexivity. Qed.

(** Without the padding the decoder refuses the same payload. *)
Example unpadded_payload_is_refused :
  Example.base64_decode Example.tcp_payload = Err "illegal base64 data"
  /\ is_ok (Example.base64_decode (pad_vmess Example.tcp_payload)) = true.
Proof. split; vm_compute; reflexivity. Qed.

Example subscription_survivors :
  (ClashProxy.Name <$>
     survivors Example.env_fallback
       (strings.Split
          (match Example.base64_decode Example.subscription with
           | Ok s => s | Err _ => EmptyString end) newline))
  = ["test-node"; "ws-node"]
  /\ warnings Example.env_fallback
       (strings.Split
          (match Example.base64_decode Example.subscription with
           | Ok s => s | Err _ => EmptyString end) newline)
     = ["Warning: Failed to convert vmess node 'bad-port', skipping: invalid port: http"].
Proof. split; vm_compute; reflexivity. Qed.

(** ** Strings *)

Lemma append_cons ch (s t : string) : String ch s ++ t = String ch (s ++ t).
Proof. reflexivity. Qed.

Lemma append_nil_r (s : string) : s ++ EmptyString = s.
Proof.
  induction s as [|ch s IH]; [reflexivity|]. rewrite append_cons. congruence.
Qed.

Lemma append_assoc (s1 s2 s3 : string) : (s1 ++ s2) ++ s3 = s1 ++ (s2 ++ s3).
Proof.
  induction s1 as [|ch s1 IH]; [reflexivity|]. rewrite !append_cons. congruence.
Qed.

Lemma length_append (s1 s2 : string) :
  String.length (s1 ++ s2) = (String.length s1 + String.length s2)%nat.
Proof.
  induction s1 as [|ch s1 IH]; [reflexivity|]. rewrite append_cons. simpl.
  congruence.
Qed.

Lemma length_padding k : String.length (padding k) = k.
Proof. induction k; simpl; congruence. Qed.

(** ** Padding of the payload *)

Lemma pad_loop_padding k : forall s, pad_loop k s = s ++ padding k.
Proof.
  induction k as [|k IH]; intros s; simpl.
  - symmetry. apply append_nil_r.
  - rewrite IH, append_assoc. reflexivity.
Qed.

Lemma pad_vmess_padding (s : string) :
  pad_vmess s = s ++ padding ((4 - String.length s mod 4) mod 4).
Proof.
  unfold pad_vmess.
  pose proof (Nat.mod_upper_bound (String.length s) 4 ltac:(lia)) as Hb.
  destruct (Nat.eqb_spec (String.length s mod 4) 0) as [E|E]; simpl negb; cbv iota.
  - rewrite E. simpl. symmetry. apply append_nil_r.
  - rewrite pad_loop_padding. f_equal. f_equal.
    symmetry. apply Nat.mod_small. lia.
Qed.

Lemma process_link_base64_only env dec link acc lg :
  dec (pad_vmess (strings.TrimPrefix (strings_TrimSpace env link) "vmess://"))
  = base64_DecodeString env
      (pad_vmess (strings.TrimPrefix (strings_TrimSpace env link) "vmess://")) ->
  process_link (with_base64 env dec) link acc lg = process_link env link acc lg.
Proof.
  intros H. unfold process_link. simpl. rewrite H. reflexivity.
Qed.

(** C8. A line that carries the [vmess://] prefix has its payload
    extended by just the [=] characters that bring its length to the next
    multiple of four (fewer than four, none when the length is one
    already), and the padded string is the one, and the only one, handed
    to the base64 decoder: a decoder that agrees with the library's on it
    gives the same turn of the loop. *)
Theorem vmess_payload_is_padded (env : Env) (link : string) :
  strings.HasPrefix (strings_TrimSpace env link) "vmess://" = true ->
  let payload := strings.TrimPrefix (strings_TrimSpace env link) "vmess://" in
  let k := ((4 - String.length payload mod 4) mod 4)%nat in
  pad_vmess payload = payload ++ padding k /\
  (String.length (pad_vmess payload) mod 4 = 0)%nat /\
  (String.length (pad_vmess payload) = String.length payload + k)%nat /\
  (k < 4)%nat /\
  ((String.length payload mod 4 = 0)%nat -> pad_vmess payload = payload) /\
  (forall acc lg,
     process_link env link acc lg =
     match base64_DecodeString env (pad_vmess payload) with
     | Err err =>
         (Ret acc,
          (lg ++ ["Warning: Failed to decode vmess link, skipping: " +:+ err])%list)
     | Ok vmessJSON =>
         process_link (with_base64 env (fun _ => Ok vmessJSON)) link acc lg
     end) /\
  (forall dec acc lg,
     dec (pad_vmess payload) = base64_DecodeString env (pad_vmess payload) ->
     process_link (with_base64 env dec) link acc lg
     = process_link env link acc lg).
Proof.
  intros Hpre payload k.
  pose proof (Nat.mod_upper_bound (String.length payload) 4 ltac:(lia)) as Hb.
  assert (Hk : (k < 4)%nat) by (apply Nat.mod_upper_bound; lia).
  assert (Hlen : String.length (pad_vmess payload)
                 = (String.length payload + k)%nat).
  { rewrite pad_vmess_padding, length_append, length_padding. reflexivity. }
  split; [apply pad_vmess_padding|].
  split.
  { rewrite Hlen. subst k. rewrite Nat.Div0.add_mod.
    remember (String.length payload mod 4)%nat as r.
    assert (Hr : r = 0%nat \/ r = 1%nat \/ r = 2%nat \/ r = 3%nat) by lia.
    destruct Hr as [ -> | [ -> | [ -> | -> ] ] ]; reflexivity. }
  split; [exact Hlen|]. split; [exact Hk|].
  split.
  { intros H0. rewrite pad_vmess_padding. fold payload. subst k. rewrite H0.
    simpl. apply append_nil_r. }
  split.
  - intros acc lg. unfold process_link at 1. fold payload.
    rewrite Hpre. fold payload.
    destruct (base64_DecodeString env (pad_vmess payload)) as [js|err] eqn:Hd;
      [|reflexivity].
    unfold process_link. simpl. rewrite Hpre. reflexivity.
  - intros dec acc lg H. apply process_link_base64_only. exact H.
Qed.

Lemma vmess_payload_is_padded_witness :
  pad_vmess Example.tcp_payload = Example.tcp_payload ++ "==" /\
  (String.length (pad_vmess Example.tcp_payload) mod 4 = 0)%nat.
Proof.
  pose proof (vmess_payload_is_padded Example.env_fallback
                ("vmess://" ++ Example.tcp_payload) eq_refl) as H.
  split; [exact (proj1 H) | exact (proj1 (proj2 H))].
Defined.

(** ** The node mapper *)

Lemma port_value_Atoi (port : string) (n : Z) :
  port_value port = Some n <-> strconv.Atoi port = inr n.
Proof.
  rewrite Atoi_decimal. unfold port_value.
  destruct (decimal_integer port) as [m|]; [|split; [discriminate | intros [? _]; discriminate]].
  destruct (in_int64 m) eqn:Hm.
  - split; [intros [= <-]; auto | intros [[= <-] _]; reflexivity].
  - split; [discriminate | intros [[= <-] ?]; congruence].
Qed.

Lemma port_value_None_Atoi (port : string) :
  port_value port = None <-> exists e, strconv.Atoi port = inl e.
Proof.
  destruct (strconv.Atoi port) as [e|n] eqn:Ha.
  - split; [eauto|]. intros _.
    destruct (port_value port) as [n|] eqn:Hp; [|reflexivity].
    apply port_value_Atoi in Hp. congruence.
  - apply port_value_Atoi in Ha. rewrite Ha.
    split; [discriminate | intros [e ?]; discriminate].
Qed.

Lemma process_link_decoded env link node acc lg :
  decodes_to env link node ->
  process_link env link acc lg =
  match convertVmessToClashProxy node with
  | Err err =>
      (Ret acc,
       (lg ++ ["Warning: Failed to convert vmess node '" +:+ VmessNode.PS node
               +:+ "', skipping: " +:+ err])%list)
  | Ok proxy =>
      (Ret ((fst acc ++ [proxy])%list, (snd acc ++ [ClashProxy.Name proxy])%list),
       lg)
  end.
Proof.
  intros (Hpre & js & Hdec & Hjson). unfold process_link.
  rewrite Hpre, Hdec, Hjson.
  destruct (convertVmessToClashProxy node); reflexivity.
Qed.

(** C1, as the code has it.  The mapper refuses a node exactly when its
    port field is no decimal integer of 64 bits (an optional sign, then
    digits only), and the loop then leaves the node out and goes on;
    a port field that denotes an integer, of whatever sign, gives an
    entry that carries this integer. *)
Theorem port_must_be_an_integer (node : VmessNode.t) :
  (port_value (VmessNode.Port node) = None ->
   convertVmessToClashProxy node
   = Err ("invalid port: " ++ VmessNode.Port node) /\
   forall env link acc lg,
     decodes_to env link node ->
     process_link env link acc lg =
     (Ret acc,
      (lg ++ ["Warning: Failed to convert vmess node '" +:+ VmessNode.PS node
              +:+ "', skipping: invalid port: " +:+ VmessNode.Port node])%list))
  /\
  (forall n, port_value (VmessNode.Port node) = Some n ->
   exists proxy,
     convertVmessToClashProxy node = Ok proxy /\
     ClashProxy.Port proxy = n /\
     forall env link acc lg,
       decodes_to env link node ->
       process_link env link acc lg =
       (Ret ((fst acc ++ [proxy])%list,
             (snd acc ++ [ClashProxy.Name proxy])%list), lg)).
Proof.
  split.
  - intros Hnone. apply port_value_None_Atoi in Hnone as [e He].
    assert (Hc : convertVmessToClashProxy node
                 = Err ("invalid port: " ++ VmessNode.Port node)).
    { unfold convertVmessToClashProxy. rewrite He. reflexivity. }
    split; [exact Hc|]. intros env link acc lg Hd.
    rewrite (process_link_decoded _ _ _ _ _ Hd), Hc. reflexivity.
  - intros n Hn. apply port_value_Atoi in Hn.
    assert (Hc : exists proxy, convertVmessToClashProxy node = Ok proxy
                               /\ ClashProxy.Port proxy = n).
    { unfold convertVmessToClashProxy. rewrite Hn.
      destruct (String.eqb (VmessNode.Net node) "ws"); eexists; split;
        reflexivity. }
    destruct Hc as (proxy & Hc & Hp). exists proxy.
    split; [exact Hc|]. split; [exact Hp|]. intros env link acc lg Hd.
    rewrite (process_link_decoded _ _ _ _ _ Hd), Hc. reflexivity.
Qed.

Lemma port_must_be_an_integer_witness :
  convertVmessToClashProxy Example.node_bad = Err "invalid port: http" /\
  exists proxy,
    convertVmessToClashProxy Example.node_tcp = Ok proxy /\
    ClashProxy.Port proxy = 443.
Proof.
  split.
  - exact (proj1 (proj1 (port_must_be_an_integer Example.node_bad) eq_refl)).
  - destruct (proj2 (port_must_be_an_integer Example.node_tcp) 443 eq_refl)
      as (proxy & Hc & Hp & _).
    exists proxy. split; [exact Hc | exact Hp].
Defined.

(** C1 as stated fails: the port field [0] does not denote a positive
    integer, and the node is mapped all the same, to an entry of port 0. *)
Lemma port_zero_is_mapped :
  VmessNode.Port Example.node_zero = "0" /\
  convertVmessToClashProxy Example.node_zero
  = Ok (ClashProxy.mk "zero-port" "vmess" "9.9.9.9" 0 "ghi-789" 0 "auto"
          false "tcp" None true).
Proof. split; reflexivity. Qed.

(** C6. The entry of a node has transport options exactly when the
    node's network is [ws]; they then hold the node's path under [path]
    and, under [headers], a map with the node's host under [Host], and
    nothing else; for any other network the field is nil and the
    serialized entry has no [ws-opts] key. *)
Theorem ws_opts_only_for_ws (node : VmessNode.t) (proxy : ClashProxy.t) :
  convertVmessToClashProxy node = Ok proxy ->
  (is_Some (ClashProxy.WSOpts proxy) <-> VmessNode.Net node = "ws") /\
  (VmessNode.Net node = "ws" ->
   exists (opts : gmap string iface) (headers : gmap string string),
     ClashProxy.WSOpts proxy = Some opts /\
     opts !! "path" = Some (IString (VmessNode.Path node)) /\
     opts !! "headers" = Some (IMapStrStr headers) /\
     headers !! "Host" = Some (VmessNode.Host node) /\
     dom opts = {[ "path"; "headers" ]} /\
     dom headers = {[ "Host" ]}) /\
  (VmessNode.Net node <> "ws" -> ClashProxy.WSOpts proxy = None) /\
  ("ws-opts" ∈ yaml_keys proxy <-> VmessNode.Net node = "ws").
Proof.
  unfold convertVmessToClashProxy.
  destruct (strconv.Atoi (VmessNode.Port node)) as [e|port]; [discriminate|].
  destruct (String.eqb_spec (VmessNode.Net node) "ws") as [Hws|Hws];
    intros [= <-]; cbn [ClashProxy.WSOpts].
  - split; [split; [auto | intros _; eauto]|].
    split.
    { intros _. eexists _, _. split; [reflexivity|].
      unfold ws_opts, ws_headers.
      split; [by rewrite lookup_insert_ne, lookup_insert_eq|].
      split; [by rewrite lookup_insert_eq|].
      split; [by rewrite lookup_insert_eq|].
      rewrite !dom_insert_L, dom_empty_L. split; set_solver. }
    split; [intros Hne; congruence|].
    split; [auto|]. intros _.
    unfold yaml_keys, yaml_fields. cbn [ClashProxy.WSOpts ClashProxy.Network].
    rewrite Hws. change (String.eqb "ws" "") with false. cbv iota.
    destruct (decide (ws_opts (VmessNode.Path node) (VmessNode.Host node) = ∅))
      as [Hempty|_].
    + exfalso. apply (f_equal (fun m => m !! "headers")) in Hempty.
      unfold ws_opts in Hempty. rewrite lookup_insert_eq, lookup_empty in Hempty.
      discriminate.
    + rewrite !fmap_app, !elem_of_app. right. right. left.
      simpl. apply list_elem_of_singleton. reflexivity.
  - split; [split; [intros [? [=]] | intros; congruence]|].
    split; [intros; congruence|].
    split; [reflexivity|].
    split; [|intros; congruence].
    unfold yaml_keys, yaml_fields. cbn [ClashProxy.WSOpts ClashProxy.Network].
    rewrite !fmap_app, !elem_of_app. simpl.
    destruct (String.eqb (VmessNode.Net node) ""); simpl;
      rewrite ?elem_of_cons, ?elem_of_nil; intros H; exfalso;
      repeat match goal with
             | H : _ \/ _ |- _ => destruct H as [H|H]
             | H : _ ∈ _ :: _ |- _ => apply elem_of_cons in H
             | H : _ ∈ [] |- _ => apply elem_of_nil in H
             | H : "ws-opts" = _ |- _ => discriminate H
             | H : False |- _ => destruct H
             end.
Qed.

Lemma ws_opts_only_for_ws_witness :
  is_Some (ClashProxy.WSOpts
             (ClashProxy.mk "ws-node" "vmess" "5.6.7.8" 8443 "def-456" 2 "auto"
                false "ws" (Some (ws_opts "/ray" "cdn.example.com")) true))
  <-> VmessNode.Net Example.node_ws = "ws".
Proof.
  exact (proj1 (ws_opts_only_for_ws Example.node_ws _ eq_refl)).
Defined.

(** ** The merger *)

Lemma string_items_only_strings (l : list iface) :
  string_items l = only_strings l.
Proof.
  unfold only_strings. induction l as [|v l IH]; [reflexivity|].
  destruct v; simpl; rewrite IH; reflexivity.
Qed.

Lemma string_items_literal (l : list string) : string_items (IString <$> l) = l.
Proof.
  induction l as [|s l IH]; [reflexivity|]. csimpl. by rewrite IH.
Qed.

Lemma merged_groups_length tmpl proxies proxyNames :
  List.length (ClashConfig.ProxyGroups (merged_config tmpl proxies proxyNames))
  = List.length (TemplateConfig.ProxyGroups tmpl).
Proof.
  simpl. rewrite convert_groups_map. simpl. apply length_fmap.
Qed.

Lemma processConvert_parsed env body decodedBody f tmpl lg :
  http_Get env (Global_Url env) = Ok (Ok body) ->
  base64_DecodeString env body = Ok decodedBody ->
  os_ReadFile env template_path = Ok f ->
  yaml_Unmarshal env f = Ok tmpl ->
  survivors env (strings.Split decodedBody newline) <> [] ->
  exists lg',
    processConvert env lg =
    (Ret (marshal_result env
            (merged_config tmpl
               (survivors env (strings.Split decodedBody newline))
               (ClashProxy.Name
                  <$> survivors env (strings.Split decodedBody newline)))),
     lg').
Proof.
  intros Hget Hdec Hread Hyaml Hne.
  rewrite (processConvert_decoded _ _ _ _ Hget Hdec). cbv zeta.
  destruct (survivors env _) as [|p ps]; [congruence|].
  rewrite (createDefault_parsed _ _ _ _ _ _ Hread Hyaml). eauto.
Qed.

(** C5. When the template file cannot be read, the merger returns the
    built-in document: port 7890, socks-port 7891, allow-lan true, mode
    [Rule], log-level [info], external-controller [127.0.0.1:9090], the
    single group [PROXY] of type [select] whose members are [DIRECT],
    [REJECT] and then the generated names in order, no rule provider
    and the single rule [MATCH,DIRECT]; and this, built on the entries of
    the subscription, is the document the conversion serializes. *)
Theorem unreadable_template_gives_default (env : Env) :
  is_ok (os_ReadFile env template_path) = false ->
  (forall proxies proxyNames lg, exists lg',
     createDefaultClashConfig env proxies proxyNames lg =
     (Ret (ClashConfig.mk 7890 7891 true "Rule" "info" "127.0.0.1:9090"
             proxies
             [ProxyGroup.mk "PROXY" "select"
                ("DIRECT" :: "REJECT" :: proxyNames)]
             None
             ["MATCH,DIRECT"]),
      lg')) /\
  (forall body decodedBody lg,
     http_Get env (Global_Url env) = Ok (Ok body) ->
     base64_DecodeString env body = Ok decodedBody ->
     survivors env (strings.Split decodedBody newline) <> [] ->
     exists lg',
       processConvert env lg =
       (Ret (marshal_result env
               (ClashConfig.mk 7890 7891 true "Rule" "info" "127.0.0.1:9090"
                  (survivors env (strings.Split decodedBody newline))
                  [ProxyGroup.mk "PROXY" "select"
                     ("DIRECT" :: "REJECT" ::
                      (ClashProxy.Name
                         <$> survivors env (strings.Split decodedBody newline)))]
                  None
                  ["MATCH,DIRECT"])),
        lg')).
Proof.
  intros Hread.
  destruct (os_ReadFile env template_path) as [f|err] eqn:Hf; [discriminate|].
  split.
  - intros proxies proxyNames lg. eexists.
    rewrite (createDefault_unreadable _ _ _ _ _ Hf). reflexivity.
  - intros body decodedBody lg Hget Hdec Hne.
    rewrite (processConvert_decoded _ _ _ _ Hget Hdec). cbv zeta.
    destruct (survivors env _) as [|p ps]; [congruence|].
    rewrite (createDefault_unreadable _ _ _ _ _ Hf). eexists. reflexivity.
Qed.

Lemma unreadable_template_gives_default_witness :
  exists lg',
    createDefaultClashConfig Example.env_fallback [] ["test-node"; "ws-node"] []
    = (Ret (ClashConfig.mk 7890 7891 true "Rule" "info" "127.0.0.1:9090"
              []
              [ProxyGroup.mk "PROXY" "select"
                 ["DIRECT"; "REJECT"; "test-node"; "ws-node"]]
              None
              ["MATCH,DIRECT"]),
       lg').
Proof.
  exact (proj1 (unreadable_template_gives_default Example.env_fallback eq_refl)
           [] ["test-node"; "ws-node"] []).
Defined.

(** C4. With a template that parses, the group of the output that
    corresponds to a template group whose [proxies] field is the string
    [${proxies}] has for members the names of the generated entries, in
    the order of their lines in the subscription; a group whose
    [proxies] field is a list of strings keeps this list as it is, a
    [${proxies}] item of the list included. *)
Theorem placeholder_group_gets_all_names
    (env : Env) (body decodedBody f : string) (tmpl : TemplateConfig.t)
    (i : nat) (g : gmap string iface) (lg : list string) :
  http_Get env (Global_Url env) = Ok (Ok body) ->
  base64_DecodeString env body = Ok decodedBody ->
  os_ReadFile env template_path = Ok f ->
  yaml_Unmarshal env f = Ok tmpl ->
  survivors env (strings.Split decodedBody newline) <> [] ->
  TemplateConfig.ProxyGroups tmpl !! i = Some g ->
  exists cfg group lg',
    processConvert env lg = (Ret (marshal_result env cfg), lg') /\
    ClashConfig.Proxies cfg = survivors env (strings.Split decodedBody newline) /\
    List.length (ClashConfig.ProxyGroups cfg)
    = List.length (TemplateConfig.ProxyGroups tmpl) /\
    ClashConfig.ProxyGroups cfg !! i = Some group /\
    (g !! "proxies" = Some (IString "${proxies}") ->
     ProxyGroup.Proxies group
     = ClashProxy.Name <$> survivors env (strings.Split decodedBody newline)) /\
    (forall names : list string,
       g !! "proxies" = Some (ISlice (IString <$> names)) ->
       ProxyGroup.Proxies group = names).
Proof.
  intros Hget Hdec Hread Hyaml Hne Hg.
  destruct (processConvert_parsed _ _ _ _ _ lg Hget Hdec Hread Hyaml Hne)
    as [lg' Hrun].
  eexists _, (convert_group _ g), lg'. split; [exact Hrun|].
  split; [reflexivity|].
  split; [apply merged_groups_length|].
  split; [rewrite merged_groups_lookup, Hg; reflexivity|].
  unfold convert_group.
  destruct (assert_string (g !! "name")) as [name ?].
  destruct (assert_string (g !! "type")) as [typ ?].
  cbn [ProxyGroup.Proxies]. unfold group_proxies. split.
  - intros ->. reflexivity.
  - intros names ->. simpl.
    apply string_items_literal.
Qed.

Lemma placeholder_group_gets_all_names_witness :
  exists cfg group lg',
    processConvert Example.env_template [] = (Ret (marshal_result Example.env_template cfg), lg') /\
    ClashConfig.ProxyGroups cfg !! 0%nat = Some group /\
    ProxyGroup.Proxies group = ["test-node"; "ws-node"].
Proof.
  destruct (placeholder_group_gets_all_names Example.env_template
              Example.subscription
              (match Example.base64_decode Example.subscription with
               | Ok s => s | Err _ => EmptyString end)
              Example.template_text Example.template_parsed 0
              (<["name" := IString "PROXY"]>
                 (<["type" := IString "select"]>
                    (<["proxies" := IString "${proxies}"]> ∅)))
              [] eq_refl ltac:(vm_compute; reflexivity) eq_refl eq_refl
              ltac:(vm_compute; discriminate) eq_refl)
    as (cfg & group & lg' & Hrun & _ & _ & Hgrp & Hph & _).
  exists cfg, group, lg'. split; [exact Hrun|]. split; [exact Hgrp|].
  rewrite Hph; [|vm_compute; reflexivity]. vm_compute. reflexivity.
Defined.

(** C10. With a template that parses the merger always returns, and
    returns one group per template group, whatever the shape of their
    fields: a name or a type that is no string reads as the empty
    string, a [proxies] field that is neither the string [${proxies}]
    nor a list gives no member, and of a list only the string items are
    kept, in order. *)
Theorem ill_typed_groups_are_tolerated
    (env : Env) (f : string) (tmpl : TemplateConfig.t)
    (proxies : list ClashProxy.t) (proxyNames lg : list string) :
  os_ReadFile env template_path = Ok f ->
  yaml_Unmarshal env f = Ok tmpl ->
  exists cfg,
    createDefaultClashConfig env proxies proxyNames lg = (Ret cfg, lg) /\
    List.length (ClashConfig.ProxyGroups cfg)
    = List.length (TemplateConfig.ProxyGroups tmpl) /\
    forall i g,
      TemplateConfig.ProxyGroups tmpl !! i = Some g ->
      exists group,
        ClashConfig.ProxyGroups cfg !! i = Some group /\
        ((forall s, g !! "name" <> Some (IString s)) ->
         ProxyGroup.Name group = "") /\
        ((forall s, g !! "type" <> Some (IString s)) ->
         ProxyGroup.Type_ group = "") /\
        (g !! "proxies" <> Some (IString "${proxies}") ->
         (forall l, g !! "proxies" <> Some (ISlice l)) ->
         ProxyGroup.Proxies group = []) /\
        (forall l, g !! "proxies" = Some (ISlice l) ->
                   ProxyGroup.Proxies group = only_strings l).
Proof.
  intros Hread Hyaml. eexists.
  split; [apply (createDefault_parsed _ _ _ _ _ _ Hread Hyaml)|].
  split; [apply merged_groups_length|].
  intros i g Hg. exists (convert_group proxyNames g).
  split; [rewrite merged_groups_lookup, Hg; reflexivity|].
  unfold convert_group.
  destruct (g !! "name") as [[| | | |name| | |]|] eqn:Hn;
    destruct (g !! "type") as [[| | | |typ| | |]|] eqn:Ht;
    cbn [assert_string ProxyGroup.Name ProxyGroup.Type_ ProxyGroup.Proxies];
    (split; [first [reflexivity | intros H; exfalso; exact (H _ eq_refl)]|]);
    (split; [first [reflexivity | intros H; exfalso; exact (H _ eq_refl)]|]);
    unfold group_proxies;
    (split;
     [ intros Hph Hsl;
       destruct (g !! "proxies") as [[| | | |p|items| |]|] eqn:Hp;
       cbn [assert_string assert_slice andb]; try reflexivity;
       [ destruct (String.eqb_spec p "${proxies}") as [->|_];
         [congruence | reflexivity]
       | exfalso; exact (Hsl _ eq_refl) ]
     | intros items ->; cbn [assert_string assert_slice andb];
       apply string_items_only_strings ]).
Qed.

Lemma ill_typed_groups_are_tolerated_witness :
  exists cfg,
    createDefaultClashConfig Example.env_odd_template [] ["n1"; "n2"] []
    = (Ret cfg, []) /\
    ClashConfig.ProxyGroups cfg
    = [ProxyGroup.mk "" "" ["a"; "${proxies}"]; ProxyGroup.mk "G" "select" []].
Proof.
  destruct (ill_typed_groups_are_tolerated Example.env_odd_template
              Example.odd_template_text Example.odd_template_parsed
              [] ["n1"; "n2"] [] eq_refl eq_refl) as (cfg & Hrun & _ & _).
  exists cfg. split; [exact Hrun|].
  injection Hrun as <-. vm_compute. reflexivity.
Defined.

(** C3, as the code has it.  When the template file is read but does
    not parse, the merger does not fall back to the built-in document:
    it logs the parse error and ends the process with status 1.  The
    orchestrator and the handler, once the subscription gave an entry,
    end with it: no error value is returned and no response is built. *)
Theorem malformed_template_ends_the_process (env : Env) (f err : string) :
  os_ReadFile env template_path = Ok f ->
  yaml_Unmarshal env f = Err err ->
  (forall proxies proxyNames lg,
     createDefaultClashConfig env proxies proxyNames lg
     = (Exit 1, (lg ++ ["Error parsing template: " +:+ err])%list)) /\
  (forall body decodedBody lg c,
     http_Get env (Global_Url env) = Ok (Ok body) ->
     base64_DecodeString env body = Ok decodedBody ->
     survivors env (strings.Split decodedBody newline) <> [] ->
     exists lg',
       processConvert env lg
       = (Exit 1, (lg' ++ ["Error parsing template: " +:+ err])%list) /\
       processConfig env c lg
       = (Exit 1, (lg' ++ ["Error parsing template: " +:+ err])%list)).
Proof.
  intros Hread Hyaml. split.
  - intros. apply (createDefault_malformed _ _ _ _ _ _ Hread Hyaml).
  - intros body decodedBody lg c Hget Hdec Hne.
    assert (Hrun : exists lg', processConvert env lg
              = (Exit 1, (lg' ++ ["Error parsing template: " +:+ err])%list)).
    { rewrite (processConvert_decoded _ _ _ _ Hget Hdec). cbv zeta.
      destruct (survivors env _) as [|p ps]; [congruence|].
      rewrite (createDefault_malformed _ _ _ _ _ _ Hread Hyaml). eauto. }
    destruct Hrun as [lg' Hrun]. exists lg'. split; [exact Hrun|].
    unfold processConfig, bind. rewrite Hrun. reflexivity.
Qed.

Lemma malformed_template_ends_the_process_witness :
  createDefaultClashConfig Example.env_broken_template [] [] []
  = (Exit 1,
     ["Error parsing template: yaml: line 1: did not find expected node content"]).
Proof.
  exact (proj1 (malformed_template_ends_the_process Example.env_broken_template
                  Example.broken_template_text
                  "yaml: line 1: did not find expected node content"
                  eq_refl eq_refl) [] [] []).
Defined.

(** C3 as stated fails: with a template that does not parse, the
    handler builds no response at all, the process ends. *)
Lemma malformed_template_gives_no_response :
  os_ReadFile Example.env_broken_template template_path = Ok "port: [" /\
  yaml_Unmarshal Example.env_broken_template "port: ["
  = Err "yaml: line 1: did not find expected node content" /\
  processConfig Example.env_broken_template [] []
  = (Exit 1,
     ["Fetching subscription content from: https://sub.example.com/link";
      "Warning: Failed to convert vmess node 'bad-port', skipping: invalid port: http";
      "Successfully converted 2 nodes.";
      "Error parsing template: yaml: line 1: did not find expected node content"]).
Proof. repeat split; vm_compute; reflexivity. Qed.

(** ** The orchestrator and the handler *)

Lemma marshal_result_not_empty env cfg :
  marshal_result env cfg <> Err empty_result.
Proof.
  unfold marshal_result. destruct (yaml_Marshal env cfg); discriminate.
Qed.

(** C7, as the code has it.  A subscription body of which no line
    gives an entry makes the conversion return the error [no valid
    vmess nodes found in the subscription].  As soon as one line gives
    an entry, whatever happened to the other lines, the conversion does
    not return this error: the entries go to the merger, and the
    conversion succeeds when the template is missing or parses and the
    document serializes. *)
Theorem no_survivor_is_an_error
    (env : Env) (body decodedBody : string) (lg : list string) :
  http_Get env (Global_Url env) = Ok (Ok body) ->
  base64_DecodeString env body = Ok decodedBody ->
  (survivors env (strings.Split decodedBody newline) = [] ->
   exists lg',
     processConvert env lg
     = (Ret (Err "no valid vmess nodes found in the subscription"), lg')) /\
  (survivors env (strings.Split decodedBody newline) <> [] ->
   (forall lg',
      processConvert env lg
      <> (Ret (Err "no valid vmess nodes found in the subscription"), lg')) /\
   (template_usable env = true ->
    exists cfg lg',
      processConvert env lg = (Ret (marshal_result env cfg), lg') /\
      ClashConfig.Proxies cfg
      = survivors env (strings.Split decodedBody newline) /\
      (forall yamlData,
         yaml_Marshal env cfg = Ok yamlData ->
         processConvert env lg = (Ret (Ok yamlData), lg')))).
Proof.
  intros Hget Hdec.
  rewrite (processConvert_decoded _ _ _ _ Hget Hdec). cbv zeta.
  split.
  - intros ->. eexists. reflexivity.
  - intros Hne. destruct (survivors env _) as [|p ps]; [congruence|].
    split.
    + intros lg'.
      destruct (createDefaultClashConfig env _ _ _) as [[cfg|code] lg2];
        [|discriminate].
      intros [= H _]. exact (marshal_result_not_empty _ _ H).
    + unfold template_usable. intros Huse.
      destruct (os_ReadFile env template_path) as [f|err] eqn:Hf.
      * destruct (yaml_Unmarshal env f) as [tmpl|err] eqn:Hy; [|discriminate].
        rewrite (createDefault_parsed _ _ _ _ _ _ Hf Hy).
        eexists _, _. split; [reflexivity|]. split; [reflexivity|].
        intros yamlData Hm. unfold marshal_result. rewrite Hm. reflexivity.
      * rewrite (createDefault_unreadable _ _ _ _ _ Hf).
        eexists _, _. split; [reflexivity|]. split; [reflexivity|].
        intros yamlData Hm. unfold marshal_result. rewrite Hm. reflexivity.
Qed.

Lemma no_survivor_is_an_error_witness :
  (exists lg',
     processConvert Example.env_barren []
     = (Ret (Err "no valid vmess nodes found in the subscription"), lg')) /\
  (exists cfg lg',
     processConvert Example.env_template []
     = (Ret (marshal_result Example.env_template cfg), lg') /\
     List.length (ClashConfig.Proxies cfg) = 2%nat).
Proof.
  split.
  - apply (proj1 (no_survivor_is_an_error Example.env_barren
                    Example.barren_subscription
                    (match Example.base64_decode Example.barren_subscription with
                     | Ok s => s | Err _ => EmptyString end)
                    [] eq_refl ltac:(vm_compute; reflexivity))).
    vm_compute. reflexivity.
  - destruct (proj2 (no_survivor_is_an_error Example.env_template
                       Example.subscription
                       (match Example.base64_decode Example.subscription with
                        | Ok s => s | Err _ => EmptyString end)
                       [] eq_refl ltac:(vm_compute; reflexivity))
                ltac:(vm_compute; discriminate))
      as (_ & Hok).
    destruct (Hok ltac:(vm_compute; reflexivity)) as (cfg & lg' & Hrun & Hps & _).
    exists cfg, lg'. split; [exact Hrun|]. rewrite Hps. vm_compute. reflexivity.
Defined.

(** C7 as stated fails: two lines of the subscription give an entry,
    the template does not parse, and the conversion does not succeed,
    the process ends. *)
Lemma survivors_do_not_ensure_success :
  List.length
    (survivors Example.env_broken_template
       (strings.Split
          (match Example.base64_decode Example.subscription with
           | Ok s => s | Err _ => EmptyString end) newline)) = 2%nat /\
  processConvert Example.env_broken_template []
  = (Exit 1,
     ["Fetching subscription content from: https://sub.example.com/link";
      "Warning: Failed to convert vmess node 'bad-port', skipping: invalid port: http";
      "Successfully converted 2 nodes.";
      "Error parsing template: yaml: line 1: did not find expected node content"]).
Proof. split; vm_compute; reflexivity. Qed.

(** C2, what the code does.  When the conversion returns an error the
    handler writes the JSON error with status 500 and then goes on, as
    on success: it sets the two headers of the YAML download and writes
    a data body, empty, with status 200. *)
Theorem failed_conversion_still_writes_data
    (env : Env) (c : Context) (lg lg' : list string) (msg : string) :
  processConvert env lg = (Ret (Err msg), lg') ->
  processConfig env c lg =
  (Ret (c ++ [CallJSON 500 (<["error" := IString msg]> ∅);
              CallHeader "Content-Type" "application/x-yaml";
              CallHeader "Content-Disposition" attachment_out_yaml;
              CallData 200 "application/x-yaml" EmptyString])%list,
   lg').
Proof.
  intros Hrun. unfold processConfig, bind, ret. rewrite Hrun.
  rewrite <- !app_assoc. reflexivity.
Qed.

Lemma failed_conversion_still_writes_data_witness :
  processConfig Example.env_offline [] [] =
  (Ret [CallJSON 500
          (<["error" :=
               IString ("failed to fetch subscription URL: "
                        +:+ "dial tcp: connection refused")]> ∅);
        CallHeader "Content-Type" "application/x-yaml";
        CallHeader "Content-Disposition" attachment_out_yaml;
        CallData 200 "application/x-yaml" EmptyString],
   ["Fetching subscription content from: https://sub.example.com/link"]).
Proof.
  exact (failed_conversion_still_writes_data Example.env_offline [] [] _ _
           eq_refl).
Defined.

(** C9. The entry a link gives depends on the link alone: if one turn
    of the loop on a link appended an entry, a turn on the same link
    from any other accumulators and log appends the same entry and its
    name, and two turns in a row append it twice. *)
Theorem decode_map_is_repeatable
    (env : Env) (link : string) (proxy : ClashProxy.t)
    (acc : list ClashProxy.t * list string) (names lg lg' : list string) :
  process_link env link acc lg = (Ret ((fst acc ++ [proxy])%list, names), lg') ->
  (forall acc2 lg2,
     process_link env link acc2 lg2
     = (Ret ((fst acc2 ++ [proxy])%list,
             (snd acc2 ++ [ClashProxy.Name proxy])%list), lg2)) /\
  (forall acc2 lg2,
     process_links env [link; link] acc2 lg2
     = (Ret ((fst acc2 ++ [proxy; proxy])%list,
             (snd acc2 ++ [ClashProxy.Name proxy; ClashProxy.Name proxy])%list),
        lg2)).
Proof.
  intros Hrun. rewrite process_link_decode_map in Hrun.
  assert (Hm : decode_map env link = Mapped proxy).
  { destruct acc as [ps ns]. cbn [fst snd] in Hrun.
    destruct (decode_map env link) as [|w|p].
    - injection Hrun as H _ _. exfalso.
      apply (f_equal (@List.length _)) in H. rewrite length_app in H.
      simpl in H. lia.
    - injection Hrun as H _ _. exfalso.
      apply (f_equal (@List.length _)) in H. rewrite length_app in H.
      simpl in H. lia.
    - injection Hrun as H _ _. apply app_inv_head in H. congruence. }
  assert (Hone : forall acc2 lg2,
     process_link env link acc2 lg2
     = (Ret ((fst acc2 ++ [proxy])%list,
             (snd acc2 ++ [ClashProxy.Name proxy])%list), lg2)).
  { intros. rewrite process_link_decode_map, Hm. reflexivity. }
  split; [exact Hone|].
  intros acc2 lg2. cbn [process_links]. unfold bind.
  rewrite Hone, Hone. cbn [fst snd]. unfold ret.
  rewrite <- !app_assoc. reflexivity.
Qed.

Lemma decode_map_is_repeatable_witness :
  process_links Example.env_fallback
    ["vmess://" ++ Example.tcp_payload; "vmess://" ++ Example.tcp_payload]
    ([], []) []
  = (Ret ([ClashProxy.mk "test-node" "vmess" "1.2.3.4" 443 "abc-123" 0 "auto"
             true "tcp" None true;
           ClashProxy.mk "test-node" "vmess" "1.2.3.4" 443 "abc-123" 0 "auto"
             true "tcp" None true],
          ["test-node"; "test-node"]), []).
Proof.
  exact (proj2 (decode_map_is_repeatable Example.env_fallback
                  ("vmess://" ++ Example.tcp_payload)
                  (ClashProxy.mk "test-node" "vmess" "1.2.3.4" 443 "abc-123" 0
                     "auto" true "tcp" None true)
                  ([], []) ["test-node"] [] []
                  ltac:(vm_compute; reflexivity)) ([], []) []).
Defined.

(** * Further properties of the code *)

(** ** The loop over the links *)

Lemma process_links_app env l1 l2 acc lg :
  process_links env (l1 ++ l2)%list acc lg =
  match process_links env l1 acc lg with
  | (Ret acc', lg') => process_links env l2 acc' lg'
  | (Exit code, lg') => (Exit code, lg')
  end.
Proof.
  revert acc lg. induction l1 as [|link rest IH]; intros acc lg; [reflexivity|].
  cbn [app process_links]. unfold bind.
  destruct (process_link env link acc lg) as [[acc'|code] lg']; [apply IH|].
  reflexivity.
Qed.

(** X1. A line that, once trimmed, does not start with [vmess://] is
    passed over in silence: the turn of the loop changes neither the
    accumulators nor the log, and the loop gives the same result with
    the line as without it, wherever the line stands. *)
Theorem other_lines_are_ignored
    (env : Env) (link : string) (before after : list string)
    (acc : list ClashProxy.t * list string) (lg : list string) :
  strings.HasPrefix (strings_TrimSpace env link) "vmess://" = false ->
  process_link env link acc lg = (Ret acc, lg) /\
  process_links env (before ++ link :: after)%list acc lg
  = process_links env (before ++ after)%list acc lg.
Proof.
  intros Hpre.
  assert (Hone : forall acc lg, process_link env link acc lg = (Ret acc, lg)).
  { intros. unfold process_link. rewrite Hpre. reflexivity. }
  split; [apply Hone|].
  rewrite !process_links_app.
  destruct (process_links env before acc lg) as [[acc'|code] lg']; [|reflexivity].
  cbn [process_links]. unfold bind. rewrite Hone. reflexivity.
Qed.

Lemma other_lines_are_ignored_witness :
  process_link Example.env_fallback "ss://YWVzLTI1Ni1nY206cGFzcw" ([], []) []
  = (Ret ([], []), []).
Proof.
  exact (proj1 (other_lines_are_ignored Example.env_fallback
                  "ss://YWVzLTI1Ni1nY206cGFzcw" [] [] ([], []) [] eq_refl)).
Defined.

(** X2. The loop over a list of lines cut in two is the loop over the
    first part followed by the loop over the second, started from the
    accumulators and the log the first part left; the loop itself never
    ends the process. *)
Theorem loop_over_two_parts
    (env : Env) (l1 l2 : list string)
    (acc : list ClashProxy.t * list string) (lg : list string) :
  exists acc1 lg1,
    process_links env l1 acc lg = (Ret acc1, lg1) /\
    process_links env (l1 ++ l2)%list acc lg = process_links env l2 acc1 lg1.
Proof.
  eexists _, _. split; [apply process_links_survivors|].
  rewrite process_links_app, process_links_survivors. reflexivity.
Qed.

(** X3. The loop keeps the two accumulators aligned: started on a list
    of entries and the list of their names, it ends on a list of
    entries and the list of their names, of equal lengths, and what was
    accumulated before is still there, in front and unchanged. *)
Theorem names_follow_entries
    (env : Env) (nodeLinks : list string)
    (acc : list ClashProxy.t * list string) (lg : list string) :
  snd acc = ClashProxy.Name <$> fst acc ->
  exists acc' lg',
    process_links env nodeLinks acc lg = (Ret acc', lg') /\
    snd acc' = ClashProxy.Name <$> fst acc' /\
    List.length (snd acc') = List.length (fst acc') /\
    fst acc `prefix_of` fst acc' /\
    snd acc `prefix_of` snd acc'.
Proof.
  intros Hal. eexists _, _. split; [apply process_links_survivors|].
  cbn [fst snd]. rewrite Hal, fmap_app.
  split; [reflexivity|]. split; [by rewrite <- fmap_app, length_fmap|].
  split; apply prefix_app_r; reflexivity.
Qed.

Lemma names_follow_entries_witness :
  exists acc' lg',
    process_links Example.env_fallback
      ["vmess://" ++ Example.tcp_payload] ([], []) [] = (Ret acc', lg') /\
    snd acc' = ClashProxy.Name <$> fst acc'.
Proof.
  destruct (names_follow_entries Example.env_fallback
              ["vmess://" ++ Example.tcp_payload] ([], []) [] eq_refl)
    as (acc' & lg' & Hrun & Hal & _).
  exists acc', lg'. split; [exact Hrun | exact Hal].
Defined.

Lemma survivors_warnings_length env nodeLinks :
  (List.length (survivors env nodeLinks) + List.length (warnings env nodeLinks)
   <= List.length nodeLinks)%nat.
Proof.
  unfold survivors, warnings.
  induction nodeLinks as [|link rest IH]; [reflexivity|].
  cbn [omap list_omap]. destruct (decode_map env link); simpl; lia.
Qed.

(** X4. A line gives at most one entry or one warning, never both: the
    entries and the log lines the loop adds are together no more than
    the lines it went through, and the log only grows at its end. *)
Theorem one_entry_or_warning_per_line
    (env : Env) (nodeLinks : list string)
    (acc : list ClashProxy.t * list string) (lg : list string) :
  exists entries logged,
    process_links env nodeLinks acc lg
    = (Ret ((fst acc ++ entries)%list,
            (snd acc ++ (ClashProxy.Name <$> entries))%list),
       (lg ++ logged)%list) /\
    (List.length entries + List.length logged <= List.length nodeLinks)%nat.
Proof.
  exists (survivors env nodeLinks), (warnings env nodeLinks).
  split; [apply process_links_survivors | apply survivors_warnings_length].
Qed.

(** ** The outcomes of a conversion *)

Lemma processConvert_not_fetched env lg :
  (forall err,
     http_Get env (Global_Url env) = Err err ->
     processConvert env lg
     = (Ret (Err ("failed to fetch subscription URL: " ++ err)),
        (lg ++ [fetch_msg env])%list)) /\
  (forall err,
     http_Get env (Global_Url env) = Ok (Err err) ->
     processConvert env lg
     = (Ret (Err ("failed to read subscription response body: " ++ err)),
        (lg ++ [fetch_msg env])%list)) /\
  (forall body err,
     http_Get env (Global_Url env) = Ok (Ok body) ->
     base64_DecodeString env body = Err err ->
     processConvert env lg
     = (Ret (Err ("failed to decode base64 subscription content: " ++ err)),
        (lg ++ [fetch_msg env])%list)).
Proof.
  unfold processConvert, bind, log_Printf, ret, fetch_msg.
  repeat split; intros.
  - rewrite H. reflexivity.
  - rewrite H. reflexivity.
  - rewrite H, H0. reflexivity.
Qed.

(** X5. The errors a conversion returns are of five kinds and no other:
    the fetch failed, the body could not be read, the body is no base64,
    no line gave an entry, or the document did not serialize. *)
Theorem conversion_errors_are_of_five_kinds
    (env : Env) (lg lg' : list string) (msg : string) :
  processConvert env lg = (Ret (Err msg), lg') ->
  ConvertError msg.
Proof.
  destruct (processConvert_not_fetched env lg) as (Hf & Hr & Hd).
  destruct (http_Get env (Global_Url env)) as [[body|err]|err] eqn:Hget.
  - destruct (base64_DecodeString env body) as [decodedBody|err] eqn:Hdec.
    + rewrite (processConvert_decoded _ _ _ _ Hget Hdec). cbv zeta.
      destruct (survivors env _) as [|p ps].
      * intros [= <- _]. apply EmptyResult.
      * destruct (createDefaultClashConfig env _ _ _) as [[cfg|code] lg2];
          [|discriminate].
        unfold marshal_result.
        destruct (yaml_Marshal env cfg) as [data|err]; [discriminate|].
        intros [= <- _]. apply SerializeError.
    + rewrite (Hd _ _ eq_refl Hdec). intros [= <- _]. apply DecodeError.
  - rewrite (Hr _ eq_refl). intros [= <- _]. apply ReadError.
  - rewrite (Hf _ eq_refl). intros [= <- _]. apply FetchError.
Qed.

Lemma conversion_errors_are_of_five_kinds_witness :
  ConvertError "failed to fetch subscription URL: dial tcp: connection refused".
Proof.
  exact (conversion_errors_are_of_five_kinds Example.env_offline [] _ _ eq_refl).
Defined.

(** X6. A conversion ends the process in one case only: the
    subscription was fetched and decoded, at least one line gave an
    entry, and the template file was read but did not parse.  The
    status is then 1 and the last log line is the parse error. *)
Theorem only_a_malformed_template_ends_the_process
    (env : Env) (lg lg' : list string) (code : Z) :
  processConvert env lg = (Exit code, lg') ->
  code = 1 /\
  exists body decodedBody f err before,
    http_Get env (Global_Url env) = Ok (Ok body) /\
    base64_DecodeString env body = Ok decodedBody /\
    survivors env (strings.Split decodedBody newline) <> [] /\
    os_ReadFile env template_path = Ok f /\
    yaml_Unmarshal env f = Err err /\
    lg' = (before ++ ["Error parsing template: " +:+ err])%list.
Proof.
  destruct (processConvert_not_fetched env lg) as (Hf & Hr & Hd).
  destruct (http_Get env (Global_Url env)) as [[body|err]|err] eqn:Hget;
    [|rewrite (Hr _ eq_refl); discriminate
     |rewrite (Hf _ eq_refl); discriminate].
  destruct (base64_DecodeString env body) as [decodedBody|err] eqn:Hdec;
    [|rewrite (Hd _ _ eq_refl Hdec); discriminate].
  rewrite (processConvert_decoded _ _ _ _ Hget Hdec). cbv zeta.
  destruct (survivors env _) as [|p ps] eqn:Hs; [discriminate|].
  destruct (os_ReadFile env template_path) as [f|err] eqn:Hread.
  - destruct (yaml_Unmarshal env f) as [tmpl|err] eqn:Hyaml.
    + rewrite (createDefault_parsed _ _ _ _ _ _ Hread Hyaml). discriminate.
    + rewrite (createDefault_malformed _ _ _ _ _ _ Hread Hyaml).
      intros [= <- <-]. split; [reflexivity|].
      exists body, decodedBody, f, err. eexists.
      split; [reflexivity|]. split; [exact Hdec|].
      split; [rewrite Hs; discriminate|].
      split; [reflexivity|]. split; [exact Hyaml | reflexivity].
  - rewrite (createDefault_unreadable _ _ _ _ _ Hread). discriminate.
Qed.

Lemma only_a_malformed_template_ends_the_process_witness :
  os_ReadFile Example.env_broken_template template_path
  = Ok Example.broken_template_text /\
  exists err, yaml_Unmarshal Example.env_broken_template
                Example.broken_template_text = Err err.
Proof.
  destruct (only_a_malformed_template_ends_the_process
              Example.env_broken_template [] _ 1
              ltac:(vm_compute; reflexivity))
    as (_ & body & decodedBody & f & err & before & _ & _ & _ & Hread & Hyaml & _).
  split; [reflexivity|]. exists err.
  assert (Hf : f = Example.broken_template_text).
  { vm_compute in Hread. injection Hread as <-. reflexivity. }
  rewrite <- Hf. exact Hyaml.
Defined.

(** X7. A conversion that succeeds returns the serialization of a
    document that holds at least one entry: the entries of the lines of
    the subscription, in order, merged with a template that was missing
    or parsed.  There is no successful conversion to an empty list of
    proxies. *)
Theorem success_carries_the_entries
    (env : Env) (lg lg' : list string) (yamlData : string) :
  processConvert env lg = (Ret (Ok yamlData), lg') ->
  exists body decodedBody cfg,
    http_Get env (Global_Url env) = Ok (Ok body) /\
    base64_DecodeString env body = Ok decodedBody /\
    yaml_Marshal env cfg = Ok yamlData /\
    ClashConfig.Proxies cfg = survivors env (strings.Split decodedBody newline) /\
    ClashConfig.Proxies cfg <> [] /\
    template_usable env = true.
Proof.
  destruct (processConvert_not_fetched env lg) as (Hf & Hr & Hd).
  destruct (http_Get env (Global_Url env)) as [[body|err]|err] eqn:Hget;
    [|rewrite (Hr _ eq_refl); discriminate
     |rewrite (Hf _ eq_refl); discriminate].
  destruct (base64_DecodeString env body) as [decodedBody|err] eqn:Hdec;
    [|rewrite (Hd _ _ eq_refl Hdec); discriminate].
  rewrite (processConvert_decoded _ _ _ _ Hget Hdec). cbv zeta.
  destruct (survivors env _) as [|p ps] eqn:Hs; [discriminate|].
  unfold template_usable.
  destruct (os_ReadFile env template_path) as [f|err] eqn:Hread.
  - destruct (yaml_Unmarshal env f) as [tmpl|err] eqn:Hyaml.
    + rewrite (createDefault_parsed _ _ _ _ _ _ Hread Hyaml).
      unfold marshal_result.
      destruct (yaml_Marshal env _) as [data|err] eqn:Hm; [|discriminate].
      intros [= <- _]. eexists body, decodedBody, _.
      split; [reflexivity|]. split; [exact Hdec|]. split; [exact Hm|].
      rewrite Hs. cbn [ClashConfig.Proxies merged_config].
      split; [reflexivity|]. split; [discriminate | reflexivity].
    + rewrite (createDefault_malformed _ _ _ _ _ _ Hread Hyaml). discriminate.
  - rewrite (createDefault_unreadable _ _ _ _ _ Hread).
    unfold marshal_result.
    destruct (yaml_Marshal env _) as [data|e] eqn:Hm; [|discriminate].
    intros [= <- _]. eexists body, decodedBody, _.
    split; [reflexivity|]. split; [exact Hdec|]. split; [exact Hm|].
    rewrite Hs. cbn [ClashConfig.Proxies default_config].
    split; [reflexivity|]. split; [discriminate | reflexivity].
Qed.

Lemma success_carries_the_entries_witness :
  exists cfg,
    yaml_Marshal Example.env_template cfg = Ok "proxies: [test-node, ws-node]" /\
    ClashConfig.Proxies cfg <> [].
Proof.
  destruct (success_carries_the_entries Example.env_template [] _
              "proxies: [test-node, ws-node]" ltac:(vm_compute; reflexivity))
    as (_ & _ & cfg & _ & _ & Hm & _ & Hne & _).
  exists cfg. split; [exact Hm | exact Hne].
Defined.

(** ** The handler *)

(** X8. When the conversion succeeds the handler adds to the response
    the two headers of the download and the YAML data with status 200,
    in this order and nothing else: no JSON object is written, and what
    the context held before is kept. *)
Theorem successful_conversion_is_served_as_yaml
    (env : Env) (c : Context) (lg lg' : list string) (yamlData : string) :
  processConvert env lg = (Ret (Ok yamlData), lg') ->
  processConfig env c lg =
  (Ret (c ++ [CallHeader "Content-Type" "application/x-yaml";
              CallHeader "Content-Disposition" attachment_out_yaml;
              CallData 200 "application/x-yaml" yamlData])%list,
   lg').
Proof.
  intros Hrun. unfold processConfig, bind, ret. rewrite Hrun.
  rewrite <- !app_assoc. reflexivity.
Qed.

Lemma successful_conversion_is_served_as_yaml_witness :
  processConfig Example.env_template [] [] =
  (Ret [CallHeader "Content-Type" "application/x-yaml";
        CallHeader "Content-Disposition" attachment_out_yaml;
        CallData 200 "application/x-yaml" "proxies: [test-node, ws-node]"],
   ["Fetching subscription content from: https://sub.example.com/link";
    "Warning: Failed to convert vmess node 'bad-port', skipping: invalid port: http";
    "Successfully converted 2 nodes."]).
Proof.
  exact (successful_conversion_is_served_as_yaml Example.env_template [] [] _ _
           ltac:(vm_compute; reflexivity)).
Defined.

(** ** The merger *)

Lemma string_items_elem (items : list iface) (member : string) :
  member ∈ string_items items -> IString member ∈ items.
Proof.
  induction items as [|v rest IH]; intros H;
    [apply elem_of_nil in H; destruct H|].
  destruct v; cbn [string_items] in H;
    try (apply elem_of_cons; right; apply IH; exact H).
  apply elem_of_cons in H as [->|H]; [apply elem_of_cons; left; reflexivity|].
  apply elem_of_cons. right. apply IH. exact H.
Qed.

Lemma convert_group_members proxyNames g member :
  member ∈ ProxyGroup.Proxies (convert_group proxyNames g) ->
  member ∈ proxyNames \/
  exists items, g !! "proxies" = Some (ISlice items) /\ IString member ∈ items.
Proof.
  unfold convert_group.
  destruct (assert_string (g !! "name")) as [name ?].
  destruct (assert_string (g !! "type")) as [typ ?].
  cbn [ProxyGroup.Proxies]. unfold group_proxies.
  destruct (g !! "proxies") as [[| | | |p|items| |]|] eqn:Hp;
    cbn [assert_string assert_slice andb];
    try (intros H; apply elem_of_nil in H; destruct H).
  - destruct (String.eqb p "${proxies}"); [auto|].
    intros H. apply elem_of_nil in H. destruct H.
  - intros H. right. exists items. split; [reflexivity|].
    apply string_items_elem. exact H.
Qed.

(** X9. Whenever the merger returns, the document holds the entries it
    was given, as they are and in order; with a template that parsed,
    the six settings, the rule providers and the rules of the document
    are those of the template. *)
Theorem merger_passes_through
    (env : Env) (proxies : list ClashProxy.t) (proxyNames lg lg' : list string)
    (cfg : ClashConfig.t) :
  createDefaultClashConfig env proxies proxyNames lg = (Ret cfg, lg') ->
  ClashConfig.Proxies cfg = proxies /\
  (forall f tmpl,
     os_ReadFile env template_path = Ok f ->
     yaml_Unmarshal env f = Ok tmpl ->
     ClashConfig.Port cfg = TemplateConfig.Port tmpl /\
     ClashConfig.SocksPort cfg = TemplateConfig.SocksPort tmpl /\
     ClashConfig.AllowLan cfg = TemplateConfig.AllowLan tmpl /\
     ClashConfig.Mode cfg = TemplateConfig.Mode tmpl /\
     ClashConfig.LogLevel cfg = TemplateConfig.LogLevel tmpl /\
     ClashConfig.ExternalCtrl cfg = TemplateConfig.ExternalCtrl tmpl /\
     ClashConfig.RulesProviders cfg = TemplateConfig.RuleProviders tmpl /\
     ClashConfig.Rules cfg = TemplateConfig.Rules tmpl /\
     lg' = lg).
Proof.
  intros Hrun.
  destruct (os_ReadFile env template_path) as [f|err] eqn:Hread.
  - destruct (yaml_Unmarshal env f) as [tmpl|err] eqn:Hyaml.
    + rewrite (createDefault_parsed _ _ _ _ _ _ Hread Hyaml) in Hrun.
      injection Hrun as <- <-. split; [reflexivity|].
      intros f' tmpl' [= <-] Hy. rewrite Hyaml in Hy. injection Hy as <-.
      repeat split.
    + rewrite (createDefault_malformed _ _ _ _ _ _ Hread Hyaml) in Hrun.
      discriminate.
  - rewrite (createDefault_unreadable _ _ _ _ _ Hread) in Hrun.
    injection Hrun as <- <-. split; [reflexivity|]. intros ? ? [=].
Qed.

Lemma merger_passes_through_witness :
  ClashConfig.Proxies
    (merged_config Example.template_parsed [] ["test-node"]) = [] /\
  ClashConfig.Port
    (merged_config Example.template_parsed [] ["test-node"]) = 7890.
Proof.
  destruct (merger_passes_through Example.env_template [] ["test-node"] [] []
              (merged_config Example.template_parsed [] ["test-node"]) eq_refl)
    as (Hp & Ht).
  split; [exact Hp|].
  destruct (Ht Example.template_text Example.template_parsed eq_refl eq_refl)
    as (Hport & _). exact Hport.
Defined.

(** X10. The merger invents no member: whenever it returns, a member of
    a group of the document is one of the generated names, or [DIRECT]
    or [REJECT] of the built-in group, or a string item of the
    [proxies] list of a group of the template. *)
Theorem group_members_come_from_names_or_template
    (env : Env) (proxies : list ClashProxy.t) (proxyNames lg lg' : list string)
    (cfg : ClashConfig.t) (group : ProxyGroup.t) (member : string) :
  createDefaultClashConfig env proxies proxyNames lg = (Ret cfg, lg') ->
  group ∈ ClashConfig.ProxyGroups cfg ->
  member ∈ ProxyGroup.Proxies group ->
  member ∈ proxyNames \/
  (is_ok (os_ReadFile env template_path) = false /\
   (member = "DIRECT" \/ member = "REJECT")) \/
  (exists f tmpl g items,
     os_ReadFile env template_path = Ok f /\
     yaml_Unmarshal env f = Ok tmpl /\
     g ∈ TemplateConfig.ProxyGroups tmpl /\
     g !! "proxies" = Some (ISlice items) /\
     IString member ∈ items).
Proof.
  intros Hrun Hgroup Hmember.
  destruct (os_ReadFile env template_path) as [f|err] eqn:Hread.
  - destruct (yaml_Unmarshal env f) as [tmpl|err] eqn:Hyaml.
    + rewrite (createDefault_parsed _ _ _ _ _ _ Hread Hyaml) in Hrun.
      injection Hrun as <- <-.
      cbn [ClashConfig.ProxyGroups merged_config] in Hgroup.
      rewrite convert_groups_map in Hgroup. cbn [app] in Hgroup.
      apply list_elem_of_fmap in Hgroup as (g & -> & Hg).
      apply convert_group_members in Hmember as [Hn|(items & Hp & Hi)];
        [left; exact Hn|].
      right. right. exists f, tmpl, g, items. auto.
    + rewrite (createDefault_malformed _ _ _ _ _ _ Hread Hyaml) in Hrun.
      discriminate.
  - rewrite (createDefault_unreadable _ _ _ _ _ Hread) in Hrun.
    injection Hrun as <- <-.
    cbn [ClashConfig.ProxyGroups default_config] in Hgroup.
    apply list_elem_of_singleton in Hgroup as ->.
    cbn [ProxyGroup.Proxies app] in Hmember.
    rewrite !elem_of_cons in Hmember.
    destruct Hmember as [->|[->|Hn]]; [right; left; auto | right; left; auto |].
    left. exact Hn.
Qed.

Lemma group_members_come_from_names_or_template_witness :
  "DIRECT" ∈ ["n1"] \/
  (is_ok (os_ReadFile Example.env_template template_path) = false /\
   ("DIRECT" = "DIRECT" \/ "DIRECT" = "REJECT")) \/
  (exists f tmpl g items,
     os_ReadFile Example.env_template template_path = Ok f /\
     yaml_Unmarshal Example.env_template f = Ok tmpl /\
     g ∈ TemplateConfig.ProxyGroups tmpl /\
     g !! "proxies" = Some (ISlice items) /\
     IString "DIRECT" ∈ items).
Proof.
  apply (group_members_come_from_names_or_template Example.env_template
           [] ["n1"] [] []
           (merged_config Example.template_parsed [] ["n1"])
           (ProxyGroup.mk "Static" "select" ["DIRECT"; "REJECT"])
           "DIRECT" eq_refl).
  - vm_compute. apply list_elem_of_further, list_elem_of_here.
  - apply list_elem_of_here.
Defined.

(** X11. A group written in the template with a name, a type and a list
    of member names comes out of the merger as it was written, whatever
    the generated names are: converting the map the decoder yields for
    it gives the group back. *)
Theorem well_typed_group_round_trip
    (proxyNames : list string) (pg : ProxyGroup.t) :
  convert_group proxyNames (group_map pg) = pg.
Proof.
  unfold convert_group, group_map, group_proxies.
  rewrite lookup_insert_eq.
  rewrite lookup_insert_ne, lookup_insert_eq by discriminate.
  rewrite lookup_insert_ne, lookup_insert_ne, lookup_insert_eq by discriminate.
  cbn [assert_string assert_slice andb].
  rewrite string_items_literal. destruct pg; reflexivity.
Qed.

(** ** Padding and serialized entries *)

Lemma pad_vmess_length (s : string) :
  (String.length (pad_vmess s) mod 4 = 0)%nat.
Proof.
  rewrite pad_vmess_padding, length_append, length_padding.
  rewrite Nat.Div0.add_mod.
  pose proof (Nat.mod_upper_bound (String.length s) 4 ltac:(lia)) as Hb.
  remember (String.length s mod 4)%nat as r.
  assert (Hr : r = 0%nat \/ r = 1%nat \/ r = 2%nat \/ r = 3%nat) by lia.
  destruct Hr as [ -> | [ -> | [ -> | -> ] ] ]; reflexivity.
Qed.

(** X12. Padding is idempotent: a payload that was padded is left as it
    is by a second padding, so a link that comes with its [=] characters
    is decoded as it stands. *)
Theorem padding_is_idempotent (vmessBase64 : string) :
  pad_vmess (pad_vmess vmessBase64) = pad_vmess vmessBase64.
Proof.
  rewrite (pad_vmess_padding (pad_vmess vmessBase64)), pad_vmess_length.
  apply append_nil_r.
Qed.

(** X13. What is serialized for a node that maps: the name, the type
    [vmess], the server, the port as the integer the port field denotes,
    the uuid, the alter id, the cipher [auto], the tls flag (true for
    the token [tls] and no other), then [network] unless it is empty,
    then [ws-opts] with path and host for the network [ws] only, then
    [skip-cert-verify], always true; no key comes twice. *)
Theorem serialized_entry_of_a_node (node : VmessNode.t) (proxy : ClashProxy.t) :
  convertVmessToClashProxy node = Ok proxy ->
  port_value (VmessNode.Port node) = Some (ClashProxy.Port proxy) /\
  yaml_fields proxy =
  ([("name", IString (VmessNode.PS node));
    ("type", IString "vmess");
    ("server", IString (VmessNode.Add node));
    ("port", IInt (ClashProxy.Port proxy));
    ("uuid", IString (VmessNode.ID node));
    ("alterId", IInt (VmessNode.Aid node));
    ("cipher", IString "auto");
    ("tls", IBool (String.eqb (VmessNode.TLS node) "tls"))]
   ++ (if String.eqb (VmessNode.Net node) "" then []
       else [("network", IString (VmessNode.Net node))])
   ++ (if String.eqb (VmessNode.Net node) "ws"
       then [("ws-opts",
              IMapStrIface
                (<["headers" :=
                     IMapStrStr (<["Host" := VmessNode.Host node]> ∅)]>
                   (<["path" := IString (VmessNode.Path node)]> ∅)))]
       else [])
   ++ [("skip-cert-verify", IBool true)])%list /\
  NoDup (yaml_keys proxy).
Proof.
  intros Hc.
  assert (Hport : port_value (VmessNode.Port node) = Some (ClashProxy.Port proxy)).
  { apply port_value_Atoi. unfold convertVmessToClashProxy in Hc.
    destruct (strconv.Atoi (VmessNode.Port node)) as [e|port]; [discriminate|].
    destruct (String.eqb (VmessNode.Net node) "ws"); injection Hc as <-;
      reflexivity. }
  split; [exact Hport|].
  unfold convertVmessToClashProxy in Hc.
  destruct (strconv.Atoi (VmessNode.Port node)) as [e|port]; [discriminate|].
  unfold yaml_keys.
  destruct (String.eqb_spec (VmessNode.Net node) "ws") as [Hws|Hws];
    injection Hc as <-; unfold yaml_fields;
    cbn [ClashProxy.Name ClashProxy.Type_ ClashProxy.Server ClashProxy.Port
         ClashProxy.UUID ClashProxy.AlterID ClashProxy.Cipher ClashProxy.TLS
         ClashProxy.Network ClashProxy.WSOpts ClashProxy.SkipCert].
  - rewrite Hws. change (String.eqb "ws" "") with false. cbv iota.
    destruct (decide (ws_opts (VmessNode.Path node) (VmessNode.Host node) = ∅))
      as [Hempty|_].
    { exfalso. apply (f_equal (fun m => m !! "headers")) in Hempty.
      unfold ws_opts in Hempty.
      rewrite lookup_insert_eq, lookup_empty in Hempty. discriminate. }
    split; [reflexivity|].
    cbn [app fmap list_fmap fst].
    apply (bool_decide_unpack _). vm_compute. reflexivity.
  - destruct (String.eqb (VmessNode.Net node) ""); (split; [reflexivity|]);
      cbn [app fmap list_fmap fst];
      apply (bool_decide_unpack _); vm_compute; reflexivity.
Qed.

Lemma serialized_entry_of_a_node_witness :
  port_value (VmessNode.Port Example.node_ws) = Some 8443.
Proof.
  exact (proj1 (serialized_entry_of_a_node Example.node_ws
                  (ClashProxy.mk "ws-node" "vmess" "5.6.7.8" 8443 "def-456" 2
                     "auto" false "ws"
                     (Some (ws_opts "/ray" "cdn.example.com")) true)
                  eq_refl)).
Defined.

(** ** Start-up and health check *)

(** X14. Loading the configuration never ends the process.  It fails
    in two cases only, a configuration file that is there and cannot be
    read, and a configuration that does not unmarshal, and then leaves
    [Global] as it was; a missing file is logged and is no failure.  On
    success [Global] holds the configuration that is returned. *)
Theorem Init_fails_only_on_a_bad_file
    (cenv : ConfigEnv) (Global : option Config.t) (lg : list string) :
  exists result Global' lg',
    Init cenv Global lg = (Ret (result, Global'), lg') /\
    (is_ok result = false <->
     (exists msg, viper_ReadInConfig cenv = Some (OtherReadError msg)) \/
     is_ok (viper_Unmarshal cenv) = false) /\
    (is_ok result = false -> Global' = Global) /\
    (forall cfg, result = Ok cfg ->
                 Global' = Some cfg /\ viper_Unmarshal cenv = Ok cfg) /\
    (forall msg,
       viper_ReadInConfig cenv = Some (ConfigFileNotFoundError msg) ->
       lg' = (lg ++ ["Config file not found, using defaults and environment variables"])%list /\
       is_ok result = is_ok (viper_Unmarshal cenv)).
Proof.
  unfold Init, bind, log_Printf, ret.
  destruct (viper_ReadInConfig cenv) as [[nf|other]|];
    destruct (viper_Unmarshal cenv) as [config|err]; eexists _, _, _;
    (split; [reflexivity|]); cbn [is_ok];
    repeat split; try discriminate; try (intros; congruence); eauto;
    try (intros [[? [=]]|[=]]); try (intros ? [= <-]; reflexivity).
Qed.

(** X15. [main] ends the process, with status 1 and a last log line
    that starts with [Failed to load config:], exactly when the
    configuration failed to load; otherwise it serves on [:8088] the
    two routes [GET /health] and [GET /config] and no other, with
    [Global] set to the loaded configuration. *)
Theorem main_serves_or_exits (cenv : ConfigEnv) (lg : list string) :
  (exists cfg lg',
     viper_Unmarshal cenv = Ok cfg /\
     (forall msg, viper_ReadInConfig cenv <> Some (OtherReadError msg)) /\
     main cenv lg =
     (Ret {| srv_Global := Some cfg;
             srv_middleware := [Logger; Recovery; SetConfig cfg];
             srv_routes := [("GET", "/health", HealthCheck);
                            ("GET", "/config", ProcessConfig)];
             srv_addr := ":8088" |}, lg')) \/
  (exists err,
     ((exists msg, viper_ReadInConfig cenv = Some (OtherReadError msg) /\
                   err = "failed to read config file: " +:+ msg) \/
      (exists msg, viper_Unmarshal cenv = Err msg /\
                   err = "failed to unmarshal config: " +:+ msg)) /\
     exists lg',
       main cenv lg
       = (Exit 1, (lg' ++ ["Failed to load config: " +:+ err])%list)).
Proof.
  unfold main, Init, bind, log_Printf, log_Fatalf, ret.
  destruct (viper_ReadInConfig cenv) as [[nf|other]|];
    destruct (viper_Unmarshal cenv) as [config|err].
  - left. eexists _, _. split; [reflexivity|]. split; [discriminate|reflexivity].
  - right. eexists. split; [right; eauto|]. eexists. reflexivity.
  - right. eexists. split; [left; eauto|]. eexists. reflexivity.
  - right. eexists. split; [left; eauto|]. eexists. reflexivity.
  - left. eexists _, _. split; [reflexivity|]. split; [discriminate|reflexivity].
  - right. eexists. split; [right; eauto|]. eexists. reflexivity.
Qed.

(** X16. The address the health check reports is the one, and the only
    one, the conversion fetches: with a network that answers as before
    at the address found under [config] in the health response, the
    conversion is the same, whatever this network answers elsewhere. *)
Theorem health_reports_the_fetched_address
    (env : Env) (now : Z) (obj : gmap string iface) (address : string)
    (get : string -> Result (Result string)) (lg : list string) :
  healthCheck env now [] = [CallJSON 200 obj] ->
  obj !! "config" = Some (IString address) ->
  get address = http_Get env address ->
  processConvert (with_http_Get env get) lg = processConvert env lg.
Proof.
  unfold healthCheck. cbn [app]. intros [= <-].
  rewrite lookup_insert_ne, lookup_insert_ne, lookup_insert_eq by discriminate.
  intros [= <-] Hget.
  unfold processConvert. cbn [Global_Url with_http_Get http_Get].
  rewrite Hget. reflexivity.
Qed.

Lemma health_reports_the_fetched_address_witness :
  processConvert
    (with_http_Get Example.env_template
       (fun u => if String.eqb u Example.url then Ok (Ok Example.subscription)
                 else Ok (Ok EmptyString))) []
  = processConvert Example.env_template [].
Proof.
  exact (health_reports_the_fetched_address Example.env_template 1700000000
           _ Example.url _ [] eq_refl eq_refl eq_refl).
Defined.
